(** * AirWatch: the category classifier, the map marker and the data card,
      with the station resolution and forecast pipeline they consume.

    The frontend sources (api/airquality.js, components/MapView.jsx,
    components/DataCard.jsx, App.jsx) are embedded function by function.  A JavaScript
    number is an IEEE 754 binary64 value, which is what Rocq's primitive
    [float] is, so [pm25 <= 15] is [PrimFloat.leb pm25 15] and NaN, the two
    zeros and the infinities behave as they do in the browser. *)

From Stdlib Require Import Floats ZArith Uint63 Bool List String Ascii Lia.
From Stdlib Require Import DecimalString.
Import ListNotations.

Set Default Proof Using "Type".

Local Open Scope string_scope.

(** A decimal literal of the sources denotes the nearest binary64 value, in
    JavaScript as here. *)
Set Warnings "-inexact-float".

(** ** JavaScript values reaching the frontend *)

Module Js.

(** The values a numeric field of a parsed JSON response (or an argument of
    the classifier, documented as a number) can hold, as far as the sources
    distinguish them: [null], [undefined] (the field is absent) or a
    number. *)
Inductive value : Type :=
| Null
| Undefined
| Number (x : float).

(** ToNumber: [null] is [+0], [undefined] is NaN. *)
Definition to_number (v : value) : float :=
  match v with
  | Null => 0%float
  | Undefined => nan
  | Number x => x
  end.

(** [v <= b] against a numeric literal [b]: ToNumber, then the IEEE
    comparison, which is false as soon as one side is NaN. *)
Definition leq (v : value) (b : float) : bool :=
  PrimFloat.leb (to_number v) b.

(** ToBoolean: [null] and [undefined] are falsy; a number is falsy exactly
    when it is [+0], [-0] or NaN. *)
Definition truthy (v : value) : bool :=
  match v with
  | Null | Undefined => false
  | Number x => negb (PrimFloat.eqb x 0%float || PrimFloat.is_nan x)
  end.

(** ToBoolean on a string-valued field; [None] stands for a field that is
    [null] or absent, and the empty string is falsy. *)
Definition truthy_str (s : option string) : bool :=
  match s with
  | None => false
  | Some s => negb (String.eqb s "")
  end.

(** [v === null] and [v === undefined]. *)
Definition is_null (v : value) : bool :=
  match v with Null => true | _ => false end.

Definition is_undefined (v : value) : bool :=
  match v with Undefined => true | _ => false end.

End Js.

(** ** api/airquality.js *)

Record CategoryInfo : Type := mkCategoryInfo {
  category : string;
  color : string;
  textColor : string;
  description : string
}.

(** [getAirQualityCategory(pm25)], branch for branch. *)
Definition getAirQualityCategory (pm25 : Js.value) : CategoryInfo :=
  if Js.is_null pm25 || Js.is_undefined pm25 then
    mkCategoryInfo "Unknown" "bg-gray-500" "text-white" "No data available"
  else if Js.leq pm25 15%float then
    mkCategoryInfo "Good" "bg-green-500" "text-white"
      "Air quality is satisfactory"
  else if Js.leq pm25 25%float then
    mkCategoryInfo "Moderate" "bg-yellow-500" "text-black"
      "Acceptable for most people"
  else if Js.leq pm25 37.5%float then
    mkCategoryInfo "Unhealthy for Sensitive" "bg-orange-500" "text-white"
      "Sensitive groups may experience symptoms"
  else if Js.leq pm25 75%float then
    mkCategoryInfo "Unhealthy" "bg-red-500" "text-white"
      "Everyone may experience health effects"
  else
    mkCategoryInfo "Very Unhealthy" "bg-purple-600" "text-white"
      "Health alert: everyone may experience serious effects".

(** The fixed severity ordering of the five numeric bands, on the labels the
    classifier returns (its label for the third band is
    ['Unhealthy for Sensitive']).  ['Unknown'] has no rank. *)
Definition severity (label : string) : option nat :=
  if String.eqb label "Good" then Some 0
  else if String.eqb label "Moderate" then Some 1
  else if String.eqb label "Unhealthy for Sensitive" then Some 2
  else if String.eqb label "Unhealthy" then Some 3
  else if String.eqb label "Very Unhealthy" then Some 4
  else None.

(** The band a value falls in: the [category] label of the classifier's
    result. *)
Definition classify (pm25 : Js.value) : string :=
  category (getAirQualityCategory pm25).

Definition numeric_bands : list string :=
  ["Good"; "Moderate"; "Unhealthy for Sensitive"; "Unhealthy";
   "Very Unhealthy"].

(** The six records the classifier can return, one per band. *)
Definition six_records : list CategoryInfo :=
  [getAirQualityCategory Js.Null;
   getAirQualityCategory (Js.Number 10%float);
   getAirQualityCategory (Js.Number 20%float);
   getAirQualityCategory (Js.Number 30%float);
   getAirQualityCategory (Js.Number 50%float);
   getAirQualityCategory (Js.Number 100%float)].

(** The double written [14.9] in a JavaScript source: the binary64 value
    nearest to 149/10. *)
Definition js_14_9 : float := 0x1.dcccccccccccdp+3%float.

(** ** The response of [GET /air-quality] as the frontend reads it *)

Record AirQualityData : Type := mkAirQualityData {
  station_name : option string;
  distance_km : Js.value;
  latitude : Js.value;
  longitude : Js.value;
  pm25 : Js.value;
  pm10 : Js.value;
  temperature_celsius : Js.value;
  relative_humidity : Js.value;
  wind_speed : Js.value;
  last_updated : option string;
  weather_time : option string;
  warning : option string;
  message : option string
}.

(** The response of [POST /predict/from-coordinates]; [predictions] keeps the
    order in which [Object.entries] enumerates the horizons. *)
Record PredictionResponse : Type := mkPredictionResponse {
  status : string;
  predictions : list (string * Js.value);
  input_timestamp : option string
}.

(** A station response in the shape of the README's example, with [v] as its
    PM2.5 reading. *)
Definition reading (v : Js.value) : AirQualityData :=
  mkAirQualityData (Some "Lahore US Consulate") (Js.Number 3.2%float)
    (Js.Number 31.523%float) (Js.Number 74.366%float) v
    (Js.Number 110.3%float) Js.Null Js.Null Js.Null
    (Some "2025-10-05T06:30:00Z") None None None.

(** ** components/MapView.jsx *)

Definition dquote : string := String "034"%char EmptyString.

Record DivIcon : Type := mkDivIcon {
  className : string;
  html : string;
  iconSize : Z * Z;
  iconAnchor : Z * Z
}.

(** [createCustomIcon(color)]: the options handed to [L.divIcon]. *)
Definition createCustomIcon (color : string) : DivIcon :=
  mkDivIcon "custom-marker"
    ("<div style=" ++ dquote ++ "background-color: " ++ color
       ++ "; width: 20px; height: 20px; border-radius: 50%; "
       ++ "border: 2px solid white; box-shadow: 0 2px 4px rgba(0,0,0,0.3);"
       ++ dquote ++ "></div>")
    (20, 20)%Z (10, 10)%Z.

(** The colour [getMarkerIcon] settles on before it builds the icon; both of
    its [return]s are [createCustomIcon] of this colour.  [None] is the
    [airQualityData] state before a response has arrived ([null]). *)
Definition markerColor (airQualityData : option AirQualityData) : string :=
  match airQualityData with
  | None => "#6b7280"
  | Some d =>
      if negb (Js.truthy (pm25 d)) then "#6b7280"
      else if Js.leq (pm25 d) 15%float then "#10b981"
      else if Js.leq (pm25 d) 25%float then "#f59e0b"
      else if Js.leq (pm25 d) 37.5%float then "#f97316"
      else if Js.leq (pm25 d) 75%float then "#ef4444"
      else "#8b5cf6"
  end.

Definition getMarkerIcon (airQualityData : option AirQualityData) : DivIcon :=
  createCustomIcon (markerColor airQualityData).

(** Hues, to compare the marker's inline colours with the card's Tailwind
    classes.  MapView names its colours in comments (Gray, Green, Yellow,
    Orange, Red, Purple); a Tailwind class carries the hue in its name. *)
Inductive Hue : Type := Gray | Green | Yellow | Orange | Red | Purple.

Definition hex_hue (c : string) : option Hue :=
  if String.eqb c "#6b7280" then Some Gray
  else if String.eqb c "#10b981" then Some Green
  else if String.eqb c "#f59e0b" then Some Yellow
  else if String.eqb c "#f97316" then Some Orange
  else if String.eqb c "#ef4444" then Some Red
  else if String.eqb c "#8b5cf6" then Some Purple
  else None.

Definition tailwind_hue (c : string) : option Hue :=
  if String.eqb c "bg-gray-500" then Some Gray
  else if String.eqb c "bg-green-500" then Some Green
  else if String.eqb c "bg-yellow-500" then Some Yellow
  else if String.eqb c "bg-orange-500" then Some Orange
  else if String.eqb c "bg-red-500" then Some Red
  else if String.eqb c "bg-purple-600" then Some Purple
  else None.

(** ** components/DataCard.jsx *)

Inductive StationSection : Type :=
| StationInfo (name distance lat lon : string)
| NoStationFound (msg : option string).

Record StatusBanner : Type := mkStatusBanner {
  banner_info : CategoryInfo;
  banner_value : string
}.

Record PredictionCard : Type := mkPredictionCard {
  card_horizon : string;
  card_value : Js.value;
  card_info : CategoryInfo
}.

Record Card : Type := mkCard {
  stationSection : StationSection;
  statusBanner : option StatusBanner;
  pm25Cell : string;
  temperatureCell : string;
  humidityCell : string;
  windCell : string;
  predictionErrorLine : option string;
  predictionCards : option (list PredictionCard * string);
  airQualityTime : option string;
  weatherTime : option string;
  warningLine : option string
}.

(** What the card returns: one of its four early views, or the card proper.
    [ErrorView] carries the [error] prop it was given. *)
Inductive View : Type :=
| Placeholder
| Loading
| ErrorView (msg : string)
| NoData
| Rendered (c : Card).

Section DataCard.

(** [Number.prototype.toFixed] and [Date.prototype.toLocaleString] are the
    browser's; the card only passes their results on. *)
Variable toFixed : float -> nat -> string.
Variable toLocaleString : string -> string.

Definition formatDateTime (dateString : option string) : string :=
  match dateString with
  | None => "N/A"
  | Some s => if String.eqb s "" then "N/A" else toLocaleString s
  end.

(** [formatValue(value, unit, decimals)]; the callers that leave
    [decimals] out get its default, 1. *)
Definition formatValue (value : Js.value) (unit : string) (decimals : nat)
  : string :=
  match value with
  | Js.Null | Js.Undefined => "N/A"
  | Js.Number x => toFixed x decimals ++ unit
  end.

Definition renderStation (data : AirQualityData) : StationSection :=
  match station_name data with
  | Some n =>
      if Js.truthy_str (Some n) then
        StationInfo n (formatValue (distance_km data) " km" 1)
          (formatValue (latitude data) "°" 4)
          (formatValue (longitude data) "°" 4)
      else NoStationFound (message data)
  | None => NoStationFound (message data)
  end.

(** The "Air Quality Status" block: rendered when
    [data.pm25 !== null && data.pm25 !== undefined]. *)
Definition renderStatus (data : AirQualityData) : option StatusBanner :=
  let airQualityInfo := getAirQualityCategory (pm25 data) in
  if negb (Js.is_null (pm25 data)) && negb (Js.is_undefined (pm25 data))
  then Some (mkStatusBanner airQualityInfo
               (formatValue (pm25 data) " μg/m³" 1))
  else None.

(** The "Predictions" block: rendered when
    [predictions && predictions.status === 'success']. *)
Definition renderPredictions (p : option PredictionResponse)
  : option (list PredictionCard * string) :=
  match p with
  | None => None
  | Some p =>
      if String.eqb (status p) "success" then
        Some (map (fun '(horizon, value) =>
                     mkPredictionCard horizon value
                       (getAirQualityCategory value))
                  (predictions p),
              if Js.truthy_str (input_timestamp p)
              then formatDateTime (input_timestamp p)
              else "Current time")
      else None
  end.

Definition whenTruthy (s : option string) : option string :=
  if Js.truthy_str s then s else None.

Definition DataCard (data : option AirQualityData) (isLoading : bool)
    (error : option string) (selectedLocation : option (float * float))
    (p : option PredictionResponse) (predictionError : option string)
  : View :=
  match selectedLocation with
  | None => Placeholder
  | Some _ =>
      if isLoading then Loading
      else match whenTruthy error with
           | Some e => ErrorView e
           | None =>
               match data with
               | None => NoData
               | Some data =>
                   Rendered
                     (mkCard (renderStation data) (renderStatus data)
                        (formatValue (pm25 data) " μg/m³" 1)
                        (formatValue (temperature_celsius data) "°C" 1)
                        (formatValue (relative_humidity data) "%" 0)
                        (formatValue (wind_speed data) " m/s" 1)
                        (whenTruthy predictionError)
                        (renderPredictions p)
                        (option_map (fun s => formatDateTime (Some s))
                           (whenTruthy (last_updated data)))
                        (option_map (fun s => formatDateTime (Some s))
                           (whenTruthy (weather_time data)))
                        (whenTruthy (warning data)))
               end
           end
  end.

End DataCard.

(** ** components/MapView.jsx: geolocation, the selected marker and its popup *)

(** What [navigator.geolocation] gives the effect that runs once on mount:
    no geolocation API, an error callback, or a position. *)
Inductive Geolocation : Type :=
| Unsupported
| GeolocationError
| Position (latitude longitude : float).

(** The value of [airQualityData.pm25 && (<div>PM2.5: ...</div>)]: the line
    for a truthy reading, otherwise the falsy reading itself, which is what
    JSX is handed to render. *)
Inductive Pm25Slot : Type :=
| Pm25Line (fixed : string)
| Leftover (v : Js.value).

Inductive PopupDetails : Type :=
| PopupStation (name : string) (distance : Js.value) (pm25Slot : Pm25Slot)
| PopupMessage (text : string).

Record SelectedMarker : Type := mkSelectedMarker {
  position : float * float;
  icon : DivIcon;
  popupCoordinates : string * string;
  popupDetails : option PopupDetails
}.

Record MapViewOutput : Type := mkMapViewOutput {
  loadingOverlay : bool;
  center : float * float;
  userMarker : option (float * float * (string * string));
  selectedMarker : option SelectedMarker
}.

(** React prints a number child and skips [null] and [undefined]. *)
Definition reactPrints (v : Js.value) : bool :=
  match v with
  | Js.Number _ => true
  | Js.Null | Js.Undefined => false
  end.

Section MapView.

Variable toFixed : float -> nat -> string.

(** The initial [mapCenter] state (New York). *)
Definition defaultCenter : float * float := (40.7128%float, (-74.0060)%float).

Definition userLocation (g : Geolocation) : option (float * float) :=
  match g with
  | Position latitude longitude => Some (latitude, longitude)
  | Unsupported | GeolocationError => None
  end.

Definition mapCenter (g : Geolocation) : float * float :=
  match g with
  | Position latitude longitude => (latitude, longitude)
  | Unsupported | GeolocationError => defaultCenter
  end.

Definition popupPm25 (d : AirQualityData) : Pm25Slot :=
  if Js.truthy (pm25 d) then
    match pm25 d with
    | Js.Number x => Pm25Line (toFixed x 1)
    | v => Leftover v
    end
  else Leftover (pm25 d).

(** The popup's block under the coordinates, present when [airQualityData]
    is: the station, or [airQualityData.message || 'No air quality data
    available']. *)
Definition renderPopupDetails (airQualityData : option AirQualityData)
  : option PopupDetails :=
  match airQualityData with
  | None => None
  | Some d =>
      match whenTruthy (station_name d) with
      | Some n => Some (PopupStation n (distance_km d) (popupPm25 d))
      | None =>
          Some (PopupMessage
                  match whenTruthy (message d) with
                  | Some m => m
                  | None => "No air quality data available"
                  end)
      end
  end.

Definition coordinateText (p : float * float) : string * string :=
  (toFixed (fst p) 4, toFixed (snd p) 4).

Definition MapView (selectedLocation : option (float * float))
    (airQualityData : option AirQualityData) (isLoading : bool)
    (g : Geolocation) : MapViewOutput :=
  mkMapViewOutput isLoading (mapCenter g)
    (option_map (fun p => (p, coordinateText p)) (userLocation g))
    (option_map
       (fun p => mkSelectedMarker p (getMarkerIcon airQualityData)
                   (coordinateText p) (renderPopupDetails airQualityData))
       selectedLocation).

End MapView.

(** ** api/airquality.js: the two requests *)

Module Api.

Definition API_BASE_URL : string := "http://localhost:8000".

Record Request : Type := mkRequest {
  url : string;
  method : string;
  headers : list (string * string);
  body : option string
}.

(** What [response.json()] settles with: the parsed body, or the parser's
    error. *)
Inductive Body (J : Type) : Type :=
| Json (data : J)
| NotJson (error : string).

(** What [fetch] settles with: a rejection (no response at all), or a
    response with its [ok] flag, its status and its body. *)
Inductive FetchOutcome (J : Type) : Type :=
| NetworkFailure (error : string)
| Response (ok : bool) (status : Z) (content : Body J).

(** How an async function settles: the value it returns or the message of
    the error it throws. *)
Inductive Settled (J : Type) : Type :=
| Resolved (value : J)
| Rejected (error : string).

Arguments Json {J} data.
Arguments NotJson {J} error.
Arguments NetworkFailure {J} error.
Arguments Response {J} ok status content.
Arguments Resolved {J} value.
Arguments Rejected {J} error.

(** A [console.error(label, error)] call. *)
Definition ConsoleLine : Type := (string * string)%type.

Section Requests.

(** Number-to-string conversion of a template literal, the browser's. *)
Variable numberToString : float -> string.
Variable J : Type.
(** The network: what [fetch] settles with for a request. *)
Variable fetch : Request -> FetchOutcome J.

(** [JSON.stringify] of a number: [null] for NaN and the infinities. *)
Definition jsonNumber (x : float) : string :=
  if PrimFloat.is_nan x || PrimFloat.is_infinity x then "null"
  else numberToString x.

Definition airQualityRequest (lat lon : float) : Request :=
  mkRequest
    (API_BASE_URL ++ "/air-quality?lat=" ++ numberToString lat ++ "&lon="
       ++ numberToString lon)
    "GET" [] None.

Definition predictionRequest (lat lon : float) : Request :=
  mkRequest (API_BASE_URL ++ "/predict/from-coordinates") "POST"
    [("Content-Type", "application/json")]
    (Some ("{" ++ dquote ++ "lat" ++ dquote ++ ":" ++ jsonNumber lat ++ ","
             ++ dquote ++ "lon" ++ dquote ++ ":" ++ jsonNumber lon ++ "}")).

Definition httpError (status : Z) : string :=
  "HTTP error! status: " ++ NilZero.string_of_int (Z.to_int status).

(** The body shared by the two functions: the [try] block, and the [catch]
    that logs under [label] and rethrows. *)
Definition request (label : string) (r : Request)
  : list ConsoleLine * Settled J :=
  match fetch r with
  | NetworkFailure e => ([(label, e)], Rejected e)
  | Response ok status content =>
      if negb ok then
        ([(label, httpError status)], Rejected (httpError status))
      else
        match content with
        | Json data => ([], Resolved data)
        | NotJson e => ([(label, e)], Rejected e)
        end
  end.

Definition fetchAirQualityData (lat lon : float)
  : list ConsoleLine * Settled J :=
  request "Error fetching air quality data:" (airQualityRequest lat lon).

Definition fetchPredictionsFromCoordinates (lat lon : float)
  : list ConsoleLine * Settled J :=
  request "Error fetching predictions:" (predictionRequest lat lon).

End Requests.

Arguments request {J} fetch label r.
Arguments fetchAirQualityData numberToString {J} fetch lat lon.
Arguments fetchPredictionsFromCoordinates numberToString {J} fetch lat lon.

End Api.

(** ** App.jsx *)

Module App.

Import Api.

(** The seven [useState] cells.  A parsed body that is [null] (or any other
    falsy JSON value) is [None]. *)
Record State : Type := mkState {
  selectedLocation : option (float * float);
  airQualityData : option AirQualityData;
  predictions : option PredictionResponse;
  isLoading : bool;
  isPredictionLoading : bool;
  error : option string;
  predictionError : option string
}.

Definition initial : State :=
  mkState None None None false false None None.

(** [handleLocationSelect] up to its [await]. *)
Definition locationSelected (lat lng : float) (st : State) : State :=
  mkState (Some (lat, lng)) None None true (isPredictionLoading st) None None.

(** [handleLocationSelect] from its [await] on: [try], [catch],
    [finally]. *)
Definition airQualitySettled (r : Settled (option AirQualityData))
    (st : State) : list ConsoleLine * State :=
  match r with
  | Resolved airQualityResult =>
      ([],
       mkState (selectedLocation st) airQualityResult (predictions st) false
         (isPredictionLoading st) (error st) (predictionError st))
  | Rejected err =>
      ([("Error:", err)],
       mkState (selectedLocation st) (airQualityData st) (predictions st)
         false (isPredictionLoading st)
         (Some "Failed to fetch air quality data") (predictionError st))
  end.

(** [handleGeneratePredictions] up to its [await], once a location is
    known. *)
Definition predictionsRequested (st : State) : State :=
  mkState (selectedLocation st) (airQualityData st) None (isLoading st) true
    (error st) None.

Definition predictionsSettled (r : Settled (option PredictionResponse))
    (st : State) : list ConsoleLine * State :=
  match r with
  | Resolved predictionsResult =>
      ([],
       mkState (selectedLocation st) (airQualityData st) predictionsResult
         (isLoading st) false (error st) (predictionError st))
  | Rejected err =>
      ([("Prediction Error:", err)],
       mkState (selectedLocation st) (airQualityData st) (predictions st)
         (isLoading st) false (error st)
         (Some "Failed to generate predictions"))
  end.

Section Handlers.

Variable numberToString : float -> string.
Variable airQualityApi : Request -> FetchOutcome (option AirQualityData).
Variable predictionApi : Request -> FetchOutcome (option PredictionResponse).

(** [handleLocationSelect(lat, lng)] run to completion with nothing else
    happening in between: the console lines and the state it leaves. *)
Definition handleLocationSelect (lat lng : float) (st : State)
  : list ConsoleLine * State :=
  let settled := fetchAirQualityData numberToString airQualityApi lat lng in
  let finished := airQualitySettled (snd settled) (locationSelected lat lng st)
  in ((fst settled ++ fst finished)%list, snd finished).

(** [handleGeneratePredictions()] run to completion. *)
Definition handleGeneratePredictions (st : State) : list ConsoleLine * State :=
  match selectedLocation st with
  | None => ([], st)
  | Some (lat, lng) =>
      let settled :=
        fetchPredictionsFromCoordinates numberToString predictionApi lat lng in
      let finished := predictionsSettled (snd settled) (predictionsRequested st)
      in ((fst settled ++ fst finished)%list, snd finished)
  end.

End Handlers.

(** What [App] hands to its two panes. *)
Definition dataCard (toFixed : float -> nat -> string)
    (toLocaleString : string -> string) (st : State) : View :=
  DataCard toFixed toLocaleString (airQualityData st) (isLoading st)
    (error st) (selectedLocation st) (predictions st) (predictionError st).

Definition mapView (toFixed : float -> nat -> string) (g : Geolocation)
    (st : State) : MapViewOutput :=
  MapView toFixed (selectedLocation st) (airQualityData st) (isLoading st) g.

(** The card's guards, without the card: a location, not loading, no error
    and a response. *)
Definition cardShown (st : State) : bool :=
  match selectedLocation st, airQualityData st with
  | Some _, Some _ => negb (isLoading st) && negb (Js.truthy_str (error st))
  | _, _ => false
  end.

(** The "Generate PM2.5 Predictions" button is part of the card and is
    [disabled] while [isPredictionLoading]. *)
Definition generateEnabled (st : State) : bool :=
  cardShown st && negb (isPredictionLoading st).

(** *** The handlers interleaved

    An [await] lets other events in.  A run is a list of events: clicks, and
    the settling of a request in flight, chosen by its place among the
    requests of its kind that are still in flight (oldest first).  The
    requests in flight are kept beside the state, with the coordinates they
    were made for. *)
Inductive Event : Type :=
| MapClick (lat lng : float)
| AirQualitySettles (i : nat) (r : Settled (option AirQualityData))
| GenerateClick
| PredictionsSettle (i : nat) (r : Settled (option PredictionResponse)).

Record Running : Type := mkRunning {
  state : State;
  airQualityInFlight : list (float * float);
  predictionsInFlight : list (float * float)
}.

Definition start : Running := mkRunning initial [] [].

Fixpoint remove_at {A : Type} (i : nat) (l : list A) : list A :=
  match l, i with
  | [], _ => []
  | _ :: rest, O => rest
  | a :: rest, S j => a :: remove_at j rest
  end.

(** One event; [None] when it cannot happen (no such request in flight, or
    the button is absent or disabled). *)
Definition step (w : Running) (e : Event) : option Running :=
  match e with
  | MapClick lat lng =>
      Some (mkRunning (locationSelected lat lng (state w))
              (airQualityInFlight w ++ [(lat, lng)])%list
              (predictionsInFlight w))
  | AirQualitySettles i r =>
      match nth_error (airQualityInFlight w) i with
      | Some _ =>
          Some (mkRunning (snd (airQualitySettled r (state w)))
                  (remove_at i (airQualityInFlight w))
                  (predictionsInFlight w))
      | None => None
      end
  | GenerateClick =>
      if generateEnabled (state w) then
        match selectedLocation (state w) with
        | None => Some w
        | Some p =>
            Some (mkRunning (predictionsRequested (state w))
                    (airQualityInFlight w)
                    (predictionsInFlight w ++ [p])%list)
        end
      else None
  | PredictionsSettle i r =>
      match nth_error (predictionsInFlight w) i with
      | Some _ =>
          Some (mkRunning (snd (predictionsSettled r (state w)))
                  (airQualityInFlight w)
                  (remove_at i (predictionsInFlight w)))
      | None => None
      end
  end.

(** What every run keeps true: a loading flag that is on has a request in
    flight behind it; the prediction flag is on exactly while a prediction
    request is in flight, and there is never more than one; and as long as no
    location is selected nothing has happened at all. *)
Definition consistent (w : Running) : Prop :=
  (isLoading (state w) = true -> airQualityInFlight w <> []) /\
  (isPredictionLoading (state w) = true <-> predictionsInFlight w <> []) /\
  List.length (predictionsInFlight w) <= 1 /\
  (selectedLocation (state w) = None -> w = mkRunning initial [] []).

Fixpoint run (w : Running) (es : list Event) : option Running :=
  match es with
  | [] => Some w
  | e :: rest =>
      match step w e with
      | Some w' => run w' rest
      | None => None
      end
  end.

End App.

(** ** The station resolution and forecast pipeline (backend)

    The backend's Python sources (main.py, routers/, services/, forecast/)
    are not among the sources at hand; only its README and the frontend that
    calls it are.  Every definition of this module is therefore written from
    the specification of the pipeline, and says so. *)

Module Pipeline.

(** Modelled from the spec: the Coordinate of the data model (the backend's
    types are missing). *)
Record Coordinate : Type := mkCoordinate {
  lat : float;
  lon : float
}.

(** Modelled from the spec: the Station of the data model (missing with the
    backend): identifier, name, coordinate, latest PM2.5 (required for a
    valid station, possibly absent in a snapshot) and PM10, and the reading's
    timestamp in seconds. *)
Record Station : Type := mkStation {
  station_id : Z;
  name : string;
  coordinate : Coordinate;
  station_pm25 : option float;
  station_pm10 : option float;
  reading_time : Z
}.

(** Modelled from the spec: what the weather provider returns (the backend's
    weather service is missing). *)
Record Weather : Type := mkWeather {
  temperature : float;
  humidity : float;
  wind : float;
  observed_at : Z
}.

(** Modelled from the spec: the Observation record of the data model, which
    the missing backend assembles (station reference, distance, pollutant
    values, weather values and timestamps), with the optional warning and
    message of the response. *)
Record Observation : Type := mkObservation {
  obs_station : option Station;
  obs_distance : option float;
  obs_pm25 : option float;
  obs_pm10 : option float;
  obs_temperature : option float;
  obs_humidity : option float;
  obs_wind : option float;
  obs_pollutant_time : option Z;
  obs_weather_time : option Z;
  obs_warning : option string;
  obs_message : option string
}.

(** Modelled from the spec: the three outcomes of the Progressive Station
    Locator (missing with the backend); a found station comes with its
    distance and the tier that yielded it, "no station found" with the search
    ceiling. *)
Inductive LocateResult : Type :=
| Found (s : Station) (distance : float) (tier : Z)
| NotFound (ceiling : Z)
| UpstreamUnavailable.

(** Modelled from the spec: the locator's radius tiers, in kilometres, in
    search order (the constant is missing with the backend; README: 1km, 5km,
    10km, 25km). *)
Definition radii : list Z := [1; 5; 10; 25]%Z.

(** Modelled from the spec: the locator's search ceiling, the last tier. *)
Definition search_ceiling : Z := last radii 0%Z.

(** Modelled from the spec: a tier's radius as the number the distances are
    compared with. *)
Definition km (r : Z) : float := PrimFloat.of_uint63 (Uint63.of_Z r).

(** Modelled from the spec: the four forecast horizons of the missing
    Forecast Dispatcher, and their labels. *)
Inductive Horizon : Type := H1 | H6 | H12 | H24.

Definition all_horizons : list Horizon := [H1; H6; H12; H24].

Definition horizon_label (h : Horizon) : string :=
  match h with
  | H1 => "1h" | H6 => "6h" | H12 => "12h" | H24 => "24h"
  end.

(** Modelled from the spec: a horizon's entry of the dispatcher's
    PredictionSet is a value or a per-horizon error marker. *)
Inductive Outcome : Type :=
| Predicted (v : float)
| HorizonError.

(** Modelled from the spec: the overall status of a prediction request. *)
Inductive Status : Type := Success | Partial | Failed.

(** Modelled from the spec: the PredictionSet the dispatcher returns, with
    the input observation's timestamp. *)
Record PredictionSet : Type := mkPredictionSet {
  entries : list (Horizon * Outcome);
  overall : Status;
  input_time : option Z
}.

Definition succeeded (o : Outcome) : bool :=
  match o with Predicted _ => true | HorizonError => false end.

(** The number of horizons that carry an error marker. *)
Definition errors (es : list (Horizon * Outcome)) : nat :=
  List.length (filter (fun e => negb (succeeded (snd e))) es).

Definition outcome_of (es : list (Horizon * Outcome)) (h : Horizon)
  : option Outcome :=
  option_map snd
    (find (fun e => String.eqb (horizon_label (fst e)) (horizon_label h))
          es).

(** Modelled from the spec: the dispatcher's overall status, "partial"
    rather than "failed" as long as one horizon succeeds, "failed" only if
    all horizons error, and "success" when none does. *)
Definition overall_status (es : list (Horizon * Outcome)) : Status :=
  if forallb (fun e => succeeded (snd e)) es then Success
  else if existsb (fun e => succeeded (snd e)) es then Partial
  else Failed.

(** Modelled from the spec: the dispatcher clamps a prediction to a
    non-negative floor. *)
Definition clamp (v : float) : float :=
  if PrimFloat.ltb v 0%float then 0%float else v.

(** Modelled from the spec: the status as the response spells it
    (success/partial/failed; DataCard tests for 'success'). *)
Definition status_string (s : Status) : string :=
  match s with
  | Success => "success" | Partial => "partial" | Failed => "failed"
  end.

(** Modelled from the spec: an unavailable value is written [null]. *)
Definition number_or_null (v : option float) : Js.value :=
  match v with Some x => Js.Number x | None => Js.Null end.

Section Collaborators.

(** The Distance Engine (haversine, in kilometres). *)
Variable distance : Coordinate -> Coordinate -> float.
(** The station registry; [None] is "unavailable". *)
Variable query : Coordinate -> Z -> option (list Station).
(** The clock and the configured staleness ceiling, in seconds. *)
Variable now : Z.
Variable staleness_ceiling : Z.
(** The weather provider; [None] is "unavailable". *)
Variable current : Coordinate -> option Weather.
(** Which coordinate the weather is fetched for (left open by the
    specification): a function of the query point and the station found. *)
Variable weather_target : Coordinate -> option Station -> Coordinate.
(** How a timestamp is written in a response. *)
Variable iso8601 : Z -> string.
(** The Feature Assembler and the model store; [None] is "model
    missing". *)
Variable FeatureVector : Type.
Variable assemble : Observation -> FeatureVector.
Variable load : Horizon -> option (FeatureVector -> float).

(** Modelled from the spec: step 2 of a tier of the locator, a station is
    kept when its PM2.5 reading is present and not older than the staleness
    ceiling. *)
Definition valid (s : Station) : bool :=
  match station_pm25 s with
  | Some _ => (now - reading_time s <=? staleness_ceiling)%Z
  | None => false
  end.

(** Modelled from the spec: steps 1 and 2 of a tier of the locator, the
    stations the registry returned that lie within the tier's radius and are
    valid. *)
Definition candidates (c : Coordinate) (r : Z) (sts : list Station)
  : list Station :=
  filter (fun s => valid s
                   && PrimFloat.leb (distance c (coordinate s)) (km r))
         sts.

(** Modelled from the spec: step 3 of a tier of the locator, [a] is
    preferred to [b]: smaller distance, then more recent reading, then
    identifier order. *)
Definition preferred (c : Coordinate) (a b : Station) : bool :=
  let da := distance c (coordinate a) in
  let db := distance c (coordinate b) in
  if PrimFloat.ltb da db then true
  else if PrimFloat.ltb db da then false
  else if (reading_time b <? reading_time a)%Z then true
  else if (reading_time a <? reading_time b)%Z then false
  else (station_id a <=? station_id b)%Z.

(** Modelled from the spec: step 3, the preferred candidate of a tier. *)
Fixpoint nearest (c : Coordinate) (l : list Station) : option Station :=
  match l with
  | [] => None
  | s :: rest =>
      match nearest c rest with
      | None => Some s
      | Some t => Some (if preferred c s t then s else t)
      end
  end.

Definition is_nil {A : Type} (l : list A) : bool :=
  match l with [] => true | _ :: _ => false end.

(** The registry answers tier [r] and no station it returns is a
    candidate there. *)
Definition unproductive (c : Coordinate) (r : Z) : bool :=
  match query c r with
  | Some sts => is_nil (candidates c r sts)
  | None => false
  end.

(** The registry answers tier [r] with at least one candidate. *)
Definition productive (c : Coordinate) (r : Z) : bool :=
  match query c r with
  | Some sts => negb (is_nil (candidates c r sts))
  | None => false
  end.

(** The registry answers tier [r] and none of the valid stations it
    returns lies within [limit] kilometres of [c]. *)
Definition none_within (c : Coordinate) (limit : Z) (r : Z) : bool :=
  match query c r with
  | Some sts =>
      forallb (fun s => negb (valid s
                              && PrimFloat.leb (distance c (coordinate s))
                                   (km limit)))
              sts
  | None => false
  end.

(** Modelled from the spec: the locator's progressive search over the tiers
    (missing with the backend), with the list of radii it put to the
    registry.  A tier that yields a
    candidate ends the search (step 4); an unreachable registry ends it
    with "upstream unavailable"; exhausting the tiers gives "no station
    found" with the ceiling. *)
Fixpoint search (ceiling : Z) (tiers : list Z) (c : Coordinate)
  : list Z * LocateResult :=
  match tiers with
  | [] => ([], NotFound ceiling)
  | r :: rest =>
      match query c r with
      | None => ([r], UpstreamUnavailable)
      | Some sts =>
          match nearest c (candidates c r sts) with
          | Some s => ([r], Found s (distance c (coordinate s)) r)
          | None =>
              let (asked, res) := search ceiling rest c in
              (r :: asked, res)
          end
      end
  end.

(** Modelled from the spec: the Progressive Station Locator, the search over
    the four tiers. *)
Definition locate (c : Coordinate) : list Z * LocateResult :=
  search search_ceiling radii c.

(** Modelled from the spec: the observation the missing backend builds
    before enrichment, for a found station. *)
Definition found_observation (s : Station) (d : float) : Observation :=
  mkObservation (Some s) (Some d) (station_pm25 s) (station_pm10 s)
    None None None (Some (reading_time s)) None None None.

(** Modelled from the spec: the message of "no station found", carrying
    the ceiling (README: "No station found within 25 km"). *)
Definition not_found_message (ceiling : Z) : string :=
  "No station found within "
    ++ NilZero.string_of_int (Z.to_int ceiling) ++ " km".

(** Modelled from the spec: the observation for "no station found", a
    message and no station. *)
Definition not_found_observation (ceiling : Z) : Observation :=
  mkObservation None None None None None None None None None None
    (Some (not_found_message ceiling)).

(** Modelled from the spec: the Weather Enricher (missing with the
    backend).  On provider failure
    the observation keeps its pollutant fields, its weather fields stay
    unavailable and a non-fatal warning is attached. *)
Definition enrich (target : Coordinate) (o : Observation) : Observation :=
  match current target with
  | Some w =>
      mkObservation (obs_station o) (obs_distance o) (obs_pm25 o)
        (obs_pm10 o) (Some (temperature w)) (Some (humidity w))
        (Some (wind w)) (obs_pollutant_time o) (Some (observed_at w))
        (obs_warning o) (obs_message o)
  | None =>
      mkObservation (obs_station o) (obs_distance o) (obs_pm25 o)
        (obs_pm10 o) None None None (obs_pollutant_time o) None
        (Some "Weather data unavailable") (obs_message o)
  end.

(** Modelled from the spec: a resolution request (the backend's
    GET /air-quality handler is missing).  Only an unreachable registry makes
    it fail. *)
Definition resolve (c : Coordinate) : option Observation :=
  match snd (locate c) with
  | Found s d _ =>
      Some (enrich (weather_target c (Some s)) (found_observation s d))
  | NotFound ceiling =>
      Some (enrich (weather_target c None)
              (not_found_observation ceiling))
  | UpstreamUnavailable => None
  end.

(** Modelled from the spec: the record the missing handler exposes upward,
    in the field names the frontend reads. *)
Definition response (o : Observation) : AirQualityData :=
  mkAirQualityData
    (option_map name (obs_station o))
    (number_or_null (obs_distance o))
    (number_or_null (option_map (fun s => lat (coordinate s))
                       (obs_station o)))
    (number_or_null (option_map (fun s => lon (coordinate s))
                       (obs_station o)))
    (number_or_null (obs_pm25 o))
    (number_or_null (obs_pm10 o))
    (number_or_null (obs_temperature o))
    (number_or_null (obs_humidity o))
    (number_or_null (obs_wind o))
    (option_map iso8601 (obs_pollutant_time o))
    (option_map iso8601 (obs_weather_time o))
    (obs_warning o)
    (obs_message o).

(** Modelled from the spec: one horizon of the Forecast Dispatcher (missing
    with the backend).  Each horizon is served by its own model; a missing
    model leaves an error marker for that horizon only. *)
Definition forecast (fv : FeatureVector) (h : Horizon) : Outcome :=
  match load h with
  | Some model => Predicted (clamp (model fv))
  | None => HorizonError
  end.

(** Modelled from the spec: the Forecast Dispatcher over the requested
    horizons. *)
Definition dispatch (fv : FeatureVector) (hs : list Horizon)
  : list (Horizon * Outcome) :=
  map (fun h => (h, forecast fv h)) hs.

(** Modelled from the spec: a prediction request, the assembled features
    dispatched and the statuses aggregated. *)
Definition predict (o : Observation) (hs : list Horizon) : PredictionSet :=
  let es := dispatch (assemble o) hs in
  mkPredictionSet es (overall_status es) (obs_pollutant_time o).

(** Modelled from the spec: the prediction response of the missing
    handler, an error marker written as [null]. *)
Definition prediction_response (p : PredictionSet) : PredictionResponse :=
  mkPredictionResponse (status_string (overall p))
    (map (fun e => (horizon_label (fst e),
                    match snd e with
                    | Predicted v => Js.Number v
                    | HorizonError => Js.Null
                    end))
         (entries p))
    (option_map iso8601 (input_time p)).

End Collaborators.

End Pipeline.

(** ** Concrete collaborators

    The two end-to-end scenarios of the specification (a single station with
    PM2.5 = 82.5 at 0.8 km, and a nearest valid station at 12 km), an empty
    registry, a failing weather provider and model stores with and without
    missing artifacts. *)

Module Scenario.

Import Pipeline.

Definition here : Coordinate := mkCoordinate 31.5204%float 74.3587%float.

Definition consulate : Station :=
  mkStation 1 "Lahore US Consulate" (mkCoordinate 31.523%float 74.366%float)
    (Some 82.5%float) (Some 110.3%float) 1000.

Definition at_800_m : Coordinate -> Coordinate -> float :=
  fun _ _ => 0.8%float.

Definition at_12_km : Coordinate -> Coordinate -> float :=
  fun _ _ => 12%float.

Definition at_40_km : Coordinate -> Coordinate -> float :=
  fun _ _ => 40%float.

(** A registry that returns its one station whatever the radius and leaves
    the filtering to the locator, an empty one and an unreachable one. *)
Definition one_station : Coordinate -> Z -> option (list Station) :=
  fun _ _ => Some [consulate].

Definition no_station : Coordinate -> Z -> option (list Station) :=
  fun _ _ => Some [].

Definition clock : Z := 1600.

Definition one_hour : Z := 3600.

Definition weather_down : Coordinate -> option Weather := fun _ => None.

Definition at_station (c : Coordinate) (s : option Station) : Coordinate :=
  match s with
  | Some s => coordinate s
  | None => c
  end.

Definition features (o : Observation) : list float :=
  match obs_pm25 o with
  | Some v => [v]
  | None => []
  end.

Definition persistence : list float -> float :=
  fun fv => hd 0%float fv.

Definition all_models : Horizon -> option (list float -> float) :=
  fun _ => Some persistence.

Definition no_24h_model : Horizon -> option (list float -> float) :=
  fun h => match h with
           | H24 => None
           | _ => Some persistence
           end.

Definition no_model : Horizon -> option (list float -> float) :=
  fun _ => None.

Definition observed : Observation :=
  mkObservation (Some consulate) (Some 0.8%float) (Some 82.5%float)
    (Some 110.3%float) None None None (Some 1000%Z) None None None.

(** The README's reply when no station is found: a message and nothing
    else. *)
Definition messageOnly (m : string) : AirQualityData :=
  mkAirQualityData None Js.Undefined Js.Undefined Js.Undefined Js.Undefined
    Js.Undefined Js.Undefined Js.Undefined Js.Undefined None None None
    (Some m).

(** Servers: one that answers every request with status 500, one that
    answers with the README's no-station reply, one that answers with a
    reading, and prediction servers. *)
Definition server_error {J : Type} : Api.Request -> Api.FetchOutcome J :=
  fun _ => Api.Response false 500 (Api.NotJson "Unexpected token I").

Definition server_no_station
  : Api.Request -> Api.FetchOutcome (option AirQualityData) :=
  fun _ => Api.Response true 200
             (Api.Json (Some (messageOnly "No station found within 25 km"))).

Definition server_reading (v : Js.value)
  : Api.Request -> Api.FetchOutcome (option AirQualityData) :=
  fun _ => Api.Response true 200 (Api.Json (Some (reading v))).

Definition forecast_reply : PredictionResponse :=
  mkPredictionResponse "success"
    [("1h", Js.Number 12%float); ("6h", Js.Number 30%float);
     ("12h", Js.Number 80%float); ("24h", Js.Null)]
    None.

Definition server_forecast
  : Api.Request -> Api.FetchOutcome (option PredictionResponse) :=
  fun _ => Api.Response true 200 (Api.Json (Some forecast_reply)).

(** Stand-ins for the browser's number and date formatting. *)
Definition plain_number : float -> string := fun _ => "n".

Definition plain_fixed : float -> nat -> string := fun _ _ => "n".

Definition plain_date : string -> string := fun s => s.

Definition lahore : float * float := (31.5204%float, 74.3587%float).

Definition karachi : float * float := (24.8607%float, 67.0011%float).

(** A session: a click, its response, the prediction button and its
    response; and the state it ends in. *)
Definition session : list App.Event :=
  [App.MapClick (fst lahore) (snd lahore);
   App.AirQualitySettles 0
     (Api.Resolved (Some (reading (Js.Number 82.5%float))));
   App.GenerateClick;
   App.PredictionsSettle 0 (Api.Resolved (Some forecast_reply))].

Definition shown_lahore : App.State :=
  App.mkState (Some lahore) (Some (reading (Js.Number 82.5%float))) None
    false false None None.

Definition after_session : App.Running :=
  App.mkRunning
    (App.mkState (Some lahore) (Some (reading (Js.Number 82.5%float)))
       (Some forecast_reply) false false None None)
    [] [].

End Scenario.

(** * Properties *)

(** ** The order of binary64 values

    The kernel specifies [PrimFloat.leb], [ltb] and [eqb] through
    [SFcompare] on the decoded value; the order facts used below are proved
    on that specification. *)

Module FloatOrder.

Local Open Scope float_scope.

Local Ltac cmp_cases :=
  repeat match goal with
  | |- context [(?a ?= ?b)%Z] => destruct (Z.compare_spec a b)
  | |- context [Pos.compare_cont Eq ?a ?b] =>
      change (Pos.compare_cont Eq a b) with (Pos.compare a b);
      destruct (Pos.compare_spec a b)
  end.

Lemma SFcompare_refl (a : spec_float) :
  a <> S754_nan -> SFcompare a a = Some Eq.
Proof.
  destruct a as [s|s| |s m e]; simpl; intros H; try congruence;
    destruct s; try reflexivity;
    rewrite Z.compare_refl;
    change (Pos.compare_cont Eq m m) with (Pos.compare m m);
    rewrite Pos.compare_refl; reflexivity.
Qed.

Lemma SFcompare_antisym (a b : spec_float) :
  SFcompare b a = option_map CompOpp (SFcompare a b).
Proof.
  destruct a as [sa|sa| |sa ma ea], b as [sb|sb| |sb mb eb]; simpl;
    try reflexivity;
    try (destruct sa; reflexivity); try (destruct sb; reflexivity);
    try (destruct sa, sb; reflexivity).
  destruct sa, sb; try reflexivity;
    rewrite (Z.compare_antisym ea eb);
    change (Pos.compare_cont Eq mb ma) with (Pos.compare mb ma);
    change (Pos.compare_cont Eq ma mb) with (Pos.compare ma mb);
    rewrite (Pos.compare_antisym ma mb);
    destruct (ea ?= eb)%Z; simpl; try reflexivity;
    destruct (ma ?= mb)%positive; reflexivity.
Qed.

Lemma SFleb_trans (a b c : spec_float) :
  SFleb a b = true -> SFleb b c = true -> SFleb a c = true.
Proof.
  unfold SFleb.
  destruct a as [sa|sa| |sa ma ea], b as [sb|sb| |sb mb eb],
           c as [sc|sc| |sc mc ec]; simpl;
    try discriminate; try reflexivity;
    repeat match goal with s : bool |- _ => destruct s end;
    try discriminate; try reflexivity;
    cmp_cases; subst; intros; try discriminate; try reflexivity;
    exfalso; lia.
Qed.

Lemma leb_trans (x y z : float) :
  (x <=? y) = true -> (y <=? z) = true -> (x <=? z) = true.
Proof. rewrite !FloatAxioms.leb_spec. apply SFleb_trans. Qed.

Lemma is_nan_spec (x : float) :
  is_nan x = true <-> Prim2SF x = S754_nan.
Proof.
  unfold is_nan. rewrite FloatAxioms.eqb_spec. unfold SFeqb. split.
  - destruct (Prim2SF x) eqn:E; try reflexivity;
      rewrite SFcompare_refl by discriminate; discriminate.
  - intros ->. reflexivity.
Qed.

Lemma leb_not_nan (x y : float) :
  (x <=? y) = true -> is_nan x = false /\ is_nan y = false.
Proof.
  rewrite FloatAxioms.leb_spec. unfold SFleb. intros H.
  split; apply not_true_is_false; rewrite is_nan_spec; intros E;
    rewrite E in H; simpl in H; try discriminate.
  destruct (Prim2SF x); discriminate.
Qed.

Lemma nan_leb_false (x y : float) :
  is_nan x = true -> (x <=? y) = false.
Proof.
  intros N. destruct (x <=? y) eqn:E; [|reflexivity].
  apply leb_not_nan in E. destruct E; congruence.
Qed.

Lemma ltb_leb_false (x y : float) :
  (y <? x) = true -> (x <=? y) = false.
Proof.
  rewrite FloatAxioms.ltb_spec, FloatAxioms.leb_spec. unfold SFltb, SFleb.
  rewrite (SFcompare_antisym (Prim2SF y) (Prim2SF x)).
  destruct (SFcompare (Prim2SF y) (Prim2SF x)) as [[| |]|]; simpl;
    congruence.
Qed.

Lemma ltb_not_nan (x y : float) :
  (y <? x) = true -> is_nan x = false.
Proof.
  rewrite FloatAxioms.ltb_spec. unfold SFltb. intros H.
  apply not_true_is_false; rewrite is_nan_spec; intros E.
  rewrite E in H. destruct (Prim2SF y); discriminate.
Qed.

Lemma not_leb_ltb (x y : float) :
  is_nan x = false -> is_nan y = false ->
  (x <=? y) = false -> (y <? x) = true.
Proof.
  intros Hx Hy. rewrite FloatAxioms.ltb_spec, FloatAxioms.leb_spec. unfold SFltb, SFleb.
  rewrite (SFcompare_antisym (Prim2SF x) (Prim2SF y)).
  assert (Prim2SF x <> S754_nan) by (rewrite <- is_nan_spec; congruence).
  assert (Prim2SF y <> S754_nan) by (rewrite <- is_nan_spec; congruence).
  destruct (Prim2SF x), (Prim2SF y); simpl; try congruence;
    repeat match goal with s : bool |- _ => destruct s end; simpl;
    try congruence;
    destruct (_ ?= _)%Z; simpl; try congruence;
    destruct (Pos.compare_cont _ _ _); simpl; congruence.
Qed.

(** A number that compares equal to zero is one of the two zeros. *)
Lemma eqb_zero_spec (x : float) :
  (x =? 0) = true -> exists s, Prim2SF x = S754_zero s.
Proof.
  rewrite FloatAxioms.eqb_spec. unfold SFeqb.
  change (Prim2SF 0) with (S754_zero false).
  destruct (Prim2SF x) as [s|s| |s m e]; simpl; try discriminate.
  - eauto.
  - destruct s; discriminate.
  - destruct s; discriminate.
Qed.

Lemma eqb_zero_leb (x c : float) :
  (x =? 0) = true -> (0 <=? c) = true -> (x <=? c) = true.
Proof.
  intros Z. destruct (eqb_zero_spec _ Z) as [s E].
  rewrite !FloatAxioms.leb_spec, E. change (Prim2SF 0) with (S754_zero false).
  unfold SFleb. destruct (Prim2SF c); simpl; trivial.
Qed.

End FloatOrder.

(** ** The category classifier *)

Section Classifier.

Local Open Scope float_scope.

(** On a number the classifier is the chain of four [<=] tests. *)
Lemma classify_number (x : float) :
  classify (Js.Number x) =
  if x <=? 15 then "Good"
  else if x <=? 25 then "Moderate"
  else if x <=? 37.5 then "Unhealthy for Sensitive"
  else if x <=? 75 then "Unhealthy"
  else "Very Unhealthy".
Proof.
  unfold classify, getAirQualityCategory, Js.leq; simpl.
  repeat match goal with |- context [if ?b then _ else _] => destruct b end;
    reflexivity.
Qed.

Lemma thresholds_increase :
  (15 <=? 25) = true /\ (25 <=? 37.5) = true /\ (37.5 <=? 75) = true.
Proof. repeat split; reflexivity. Qed.

(** A value above a threshold fails the test against it, and a value that
    fails it while passing a later one is strictly above it. *)
Lemma above_iff (x lo hi : float) :
  is_nan lo = false ->
  (x <=? lo) = false /\ (x <=? hi) = true <->
  (lo <? x) = true /\ (x <=? hi) = true.
Proof.
  intros L. split; intros [A B]; split; trivial.
  - apply FloatOrder.not_leb_ltb; trivial.
    apply (FloatOrder.leb_not_nan _ _ B).
  - apply FloatOrder.ltb_leb_false; trivial.
Qed.

Lemma beyond_iff (x lo : float) :
  is_nan lo = false ->
  (x <=? lo) = false <-> (lo <? x) = true \/ is_nan x = true.
Proof.
  intros L. split.
  - intros A. destruct (is_nan x) eqn:N; [right; reflexivity|left].
    apply FloatOrder.not_leb_ltb; trivial.
  - intros [A|A].
    + apply FloatOrder.ltb_leb_false; trivial.
    + apply FloatOrder.nan_leb_false; trivial.
Qed.

End Classifier.

(** Closes the five equivalences of a band once every test is decided. *)
Ltac band_case :=
  repeat match goal with
         | |- _ /\ _ => split
         | |- _ <-> _ => split
         end;
  intros;
  repeat match goal with
         | H : _ /\ _ |- _ => destruct H
         | H : _ \/ _ |- _ => destruct H
         end;
  try discriminate; try reflexivity; auto.

(** C1, as the claim states it, fails at the first boundary: the value 15 is
    classified Good, not Moderate (and likewise 25, 37.5 and 75 stay in the
    band they close). *)
Lemma classify_boundary_stays_in_band :
  classify (Js.Number 15%float) = "Good" /\
  classify (Js.Number 15%float) <> "Moderate" /\
  classify (Js.Number 25%float) <> "Unhealthy for Sensitive" /\
  classify (Js.Number 37.5%float) <> "Unhealthy" /\
  classify (Js.Number 75%float) <> "Very Unhealthy".
Proof. repeat split; vm_compute; discriminate. Qed.

(** C1 (amended): the classifier applies the thresholds 15, 25, 37.5 and 75
    as inclusive upper bounds.  For every number [x] the band is Good exactly
    when [x <= 15], Moderate exactly when [15 < x <= 25], Unhealthy for
    Sensitive exactly when [25 < x <= 37.5], Unhealthy exactly when
    [37.5 < x <= 75], and Very Unhealthy otherwise ([75 < x], or NaN).  In
    particular 14.9 and 15 are Good, 25 is Moderate, 37.5 is Unhealthy for
    Sensitive and 75 is Unhealthy: a value equal to a band's upper bound
    stays in that band. *)
Theorem classify_inclusive_upper_bounds :
  (forall x : float,
      (classify (Js.Number x) = "Good" <-> (x <=? 15)%float = true) /\
      (classify (Js.Number x) = "Moderate" <->
         (15 <? x)%float = true /\ (x <=? 25)%float = true) /\
      (classify (Js.Number x) = "Unhealthy for Sensitive" <->
         (25 <? x)%float = true /\ (x <=? 37.5)%float = true) /\
      (classify (Js.Number x) = "Unhealthy" <->
         (37.5 <? x)%float = true /\ (x <=? 75)%float = true) /\
      (classify (Js.Number x) = "Very Unhealthy" <->
         (75 <? x)%float = true \/ is_nan x = true)) /\
  classify (Js.Number js_14_9) = "Good" /\
  classify (Js.Number 15%float) = "Good" /\
  classify (Js.Number 25%float) = "Moderate" /\
  classify (Js.Number 37.5%float) = "Unhealthy for Sensitive" /\
  classify (Js.Number 75%float) = "Unhealthy".
Proof.
  split; [|repeat split; reflexivity].
  intros x. rewrite classify_number.
  destruct thresholds_increase as (T1 & T2 & T3).
  rewrite <- (above_iff x 15 25), <- (above_iff x 25 37.5),
    <- (above_iff x 37.5 75), <- (beyond_iff x 75) by reflexivity.
  destruct (x <=? 15)%float eqn:A.
  { pose proof (FloatOrder.leb_trans x 15 25 A T1) as B.
    pose proof (FloatOrder.leb_trans x 25 37.5 B T2) as C.
    pose proof (FloatOrder.leb_trans x 37.5 75 C T3) as D.
    rewrite B, C, D. band_case. }
  destruct (x <=? 25)%float eqn:B.
  { pose proof (FloatOrder.leb_trans x 25 37.5 B T2) as C.
    pose proof (FloatOrder.leb_trans x 37.5 75 C T3) as D.
    rewrite C, D. band_case. }
  destruct (x <=? 37.5)%float eqn:C.
  { pose proof (FloatOrder.leb_trans x 37.5 75 C T3) as D.
    rewrite D. band_case. }
  destruct (x <=? 75)%float eqn:D; band_case.
Qed.

(** C3: the classifier is monotonic non-decreasing in severity.  Whenever
    [x <= y] holds for two numbers, both fall in a numeric band and the rank
    of [x]'s band is at most the rank of [y]'s, under
    Good < Moderate < Unhealthy for Sensitive < Unhealthy < Very Unhealthy. *)
Theorem classify_monotone (x y : float) :
  (x <=? y)%float = true ->
  exists rx ry,
    severity (classify (Js.Number x)) = Some rx /\
    severity (classify (Js.Number y)) = Some ry /\
    rx <= ry.
Proof.
  intros H. rewrite !classify_number.
  destruct (x <=? 15)%float eqn:X1;
    [|destruct (x <=? 25)%float eqn:X2;
      [|destruct (x <=? 37.5)%float eqn:X3;
        [|destruct (x <=? 75)%float eqn:X4]]];
  (destruct (y <=? 15)%float eqn:Y1;
    [|destruct (y <=? 25)%float eqn:Y2;
      [|destruct (y <=? 37.5)%float eqn:Y3;
        [|destruct (y <=? 75)%float eqn:Y4]]]);
  try (do 2 eexists; split; [reflexivity|split; [reflexivity|lia]]);
  exfalso;
  match goal with
  | Hy : (y <=? ?c)%float = true, Hx : (x <=? ?c)%float = false |- _ =>
      rewrite (FloatOrder.leb_trans _ _ _ H Hy) in Hx; discriminate
  end.
Qed.

Lemma classify_monotone_witness :
  exists rx ry,
    severity (classify (Js.Number 20%float)) = Some rx /\
    severity (classify (Js.Number 80%float)) = Some ry /\
    rx <= ry.
Proof. apply (classify_monotone 20 80). reflexivity. Defined.

(** C4: for [null] and for [undefined] the classifier returns the band
    "Unknown", which is none of the five numeric bands (it has no severity
    rank, and no number is ever classified Unknown). *)
Theorem classify_missing_is_unknown :
  classify Js.Null = "Unknown" /\
  classify Js.Undefined = "Unknown" /\
  ~ In "Unknown" numeric_bands /\
  severity "Unknown" = None /\
  forall x : float, In (classify (Js.Number x)) numeric_bands.
Proof.
  split; [reflexivity|]. split; [reflexivity|].
  split; [|split; [reflexivity|]].
  - simpl. intros H. repeat (destruct H as [H|H]; [discriminate|]). exact H.
  - intros x. rewrite classify_number. unfold numeric_bands.
    repeat match goal with |- context [if ?b then _ else _] => destruct b end;
      simpl; tauto.
Qed.

(** C9: a NaN input falls through every threshold test to the last branch,
    so the classifier returns "Very Unhealthy", not the "Unknown" band it
    keeps for [null] and [undefined]. *)
Theorem classify_nan_very_unhealthy (x : float) :
  is_nan x = true ->
  classify (Js.Number x) = "Very Unhealthy" /\
  classify (Js.Number x) <> "Unknown" /\
  getAirQualityCategory (Js.Number x) <> getAirQualityCategory Js.Null.
Proof.
  intros N.
  assert (E : getAirQualityCategory (Js.Number x) =
              mkCategoryInfo "Very Unhealthy" "bg-purple-600" "text-white"
                "Health alert: everyone may experience serious effects").
  { unfold getAirQualityCategory, Js.leq; simpl.
    rewrite !(FloatOrder.nan_leb_false x _ N). reflexivity. }
  unfold classify. rewrite E. repeat split; simpl; discriminate.
Qed.

Lemma classify_nan_very_unhealthy_witness :
  classify (Js.Number nan) = "Very Unhealthy" /\
  classify (Js.Number nan) <> "Unknown" /\
  getAirQualityCategory (Js.Number nan) <> getAirQualityCategory Js.Null.
Proof. apply (classify_nan_very_unhealthy nan). reflexivity. Defined.

(** ** The map marker against the data card *)

Section MarkerAndCard.

Local Open Scope float_scope.

Variable toFixed : float -> nat -> string.

(** The live banner and a forecast card of the data card come from the
    same call: for a reading that is present they show the same record. *)
Lemma card_paths_agree (d : AirQualityData) (horizon : string)
    (ts : option string) (toLocaleString : string -> string) :
  Js.is_null (pm25 d) = false -> Js.is_undefined (pm25 d) = false ->
  option_map (fun b => [banner_info b]) (renderStatus toFixed d) =
  option_map (fun r => map card_info (fst r))
    (renderPredictions toLocaleString
       (Some (mkPredictionResponse "success" [(horizon, pm25 d)] ts))).
Proof.
  intros N U. unfold renderStatus. rewrite N, U. reflexivity.
Qed.

(** Away from the falsy readings the marker's colour has the hue of the
    classifier's colour. *)
Lemma marker_agrees_on_truthy (d : AirQualityData) :
  Js.truthy (pm25 d) = true ->
  hex_hue (markerColor (Some d)) =
  tailwind_hue (color (getAirQualityCategory (pm25 d))).
Proof.
  intros T. unfold markerColor, getAirQualityCategory. rewrite T.
  destruct (pm25 d) as [| |x]; try discriminate. simpl.
  repeat match goal with |- context [if ?b then _ else _] => destruct b end;
    reflexivity.
Qed.

Lemma marker_agrees_on_missing (d : AirQualityData) :
  Js.is_null (pm25 d) || Js.is_undefined (pm25 d) = true ->
  hex_hue (markerColor (Some d)) =
  tailwind_hue (color (getAirQualityCategory (pm25 d))).
Proof.
  unfold markerColor, getAirQualityCategory.
  destruct (pm25 d); simpl; try discriminate; reflexivity.
Qed.

Lemma icons_differ :
  createCustomIcon "#6b7280" <> createCustomIcon "#10b981".
Proof.
  intros H. apply (f_equal html) in H. vm_compute in H. discriminate.
Qed.

Lemma zero_is_good (x : float) :
  (x =? 0) = true ->
  getAirQualityCategory (Js.Number x) =
  mkCategoryInfo "Good" "bg-green-500" "text-white"
    "Air quality is satisfactory".
Proof.
  intros Z. unfold getAirQualityCategory, Js.leq; simpl.
  rewrite (FloatOrder.eqb_zero_leb x 15 Z) by reflexivity. reflexivity.
Qed.

End MarkerAndCard.

(** C2, evaluated where it fails: for a live observation with [pm25 = 0] the
    map marker takes the gray "no data" colour, while the data card's live
    banner and a forecast card for the same value 0 both take the green of
    the Good band. *)
Theorem marker_disagrees_with_card_at_zero :
  hex_hue (markerColor (Some (reading (Js.Number 0%float)))) = Some Gray /\
  (forall toFixed,
      option_map (fun b => tailwind_hue (color (banner_info b)))
        (renderStatus toFixed (reading (Js.Number 0%float)))
      = Some (Some Green)) /\
  (forall toLocaleString,
      option_map (fun r => map (fun k => tailwind_hue (color (card_info k)))
                             (fst r))
        (renderPredictions toLocaleString
           (Some (mkPredictionResponse "success"
                    [("1h", Js.Number 0%float)] None)))
      = Some [Some Green]) /\
  classify (Js.Number 0%float) = "Good".
Proof. repeat split. Qed.

(** C10: for every [airQualityData] whose [pm25] is a zero, [getMarkerIcon]
    returns the gray "no data" icon (colour #6b7280), the one it returns when
    there is no data at all, and not the green icon; the data card shows the
    same reading as a valid Good one. *)
Theorem marker_zero_is_gray (d : AirQualityData) (x : float) :
  pm25 d = Js.Number x ->
  (x =? 0)%float = true ->
  getMarkerIcon (Some d) = createCustomIcon "#6b7280" /\
  getMarkerIcon (Some d) = getMarkerIcon None /\
  getMarkerIcon (Some d) <> createCustomIcon "#10b981" /\
  forall toFixed,
    option_map banner_info (renderStatus toFixed d) =
    Some (mkCategoryInfo "Good" "bg-green-500" "text-white"
            "Air quality is satisfactory").
Proof.
  intros P Z.
  assert (G : getMarkerIcon (Some d) = createCustomIcon "#6b7280").
  { unfold getMarkerIcon, markerColor. rewrite P. simpl. rewrite Z.
    reflexivity. }
  split; [exact G|]. split; [exact G|]. split.
  - rewrite G. exact icons_differ.
  - intros toFixed. unfold renderStatus. rewrite P. simpl.
    rewrite (zero_is_good x Z). reflexivity.
Qed.

Lemma marker_zero_is_gray_witness :
  getMarkerIcon (Some (reading (Js.Number 0%float)))
  = createCustomIcon "#6b7280" /\
  getMarkerIcon (Some (reading (Js.Number 0%float))) = getMarkerIcon None /\
  getMarkerIcon (Some (reading (Js.Number 0%float)))
  <> createCustomIcon "#10b981" /\
  forall toFixed,
    option_map banner_info
      (renderStatus toFixed (reading (Js.Number 0%float))) =
    Some (mkCategoryInfo "Good" "bg-green-500" "text-white"
            "Air quality is satisfactory").
Proof.
  apply (marker_zero_is_gray (reading (Js.Number 0%float)) 0%float);
    reflexivity.
Defined.

(** ** The progressive station locator *)

Section Locator.

Import Pipeline.
Local Open Scope list_scope.
Local Open Scope float_scope.

Variable distance : Coordinate -> Coordinate -> float.
Variable query : Coordinate -> Z -> option (list Station).
Variable now : Z.
Variable staleness_ceiling : Z.

Local Abbreviation valid := (Pipeline.valid now staleness_ceiling).
Local Abbreviation candidates :=
  (Pipeline.candidates distance now staleness_ceiling).
Local Abbreviation nearest := (Pipeline.nearest distance).
Local Abbreviation unproductive :=
  (Pipeline.unproductive distance query now staleness_ceiling).
Local Abbreviation productive :=
  (Pipeline.productive distance query now staleness_ceiling).
Local Abbreviation none_within :=
  (Pipeline.none_within distance query now staleness_ceiling).
Local Abbreviation search := (Pipeline.search distance query now staleness_ceiling).
Local Abbreviation locate := (Pipeline.locate distance query now staleness_ceiling).

Lemma nearest_nil_iff (c : Coordinate) (l : list Station) :
  nearest c l = None <-> l = [].
Proof.
  destruct l as [|s l]; simpl; [split; reflexivity|].
  destruct (nearest c l); split; discriminate.
Qed.

Lemma nearest_In (c : Coordinate) (l : list Station) :
  forall s, nearest c l = Some s -> In s l.
Proof.
  induction l as [|a l IH]; simpl; intros s H; [discriminate|].
  destruct (nearest c l) as [t|].
  - injection H as <-. destruct (preferred distance c a t); auto.
  - injection H as <-. auto.
Qed.

Lemma candidate_spec (c : Coordinate) (r : Z) (sts : list Station)
    (s : Station) :
  In s (candidates c r sts) <->
  In s sts /\ valid s = true /\ (distance c (coordinate s) <=? km r) = true.
Proof.
  unfold Pipeline.candidates. rewrite filter_In, andb_true_iff. reflexivity.
Qed.

Lemma valid_has_pm25 (s : Station) :
  valid s = true -> exists v, station_pm25 s = Some v.
Proof.
  unfold Pipeline.valid. destruct (station_pm25 s) as [v|]; [eauto|discriminate].
Qed.

(** The radii the locator asks for are always an initial part of the tiers,
    in their order. *)
Lemma search_prefix (ceiling : Z) (c : Coordinate) (tiers : list Z) :
  exists rest, tiers = fst (search ceiling tiers c) ++ rest.
Proof.
  induction tiers as [|r tiers [rest IH]]; simpl; [exists []; reflexivity|].
  destruct (query c r) as [sts|]; [|exists tiers; reflexivity].
  destruct (nearest c (candidates c r sts)); [exists tiers; reflexivity|].
  destruct (search ceiling tiers c) as [asked res]; simpl in *.
  exists rest. congruence.
Qed.

Lemma search_skips (ceiling : Z) (c : Coordinate) (r : Z) (tiers : list Z) :
  unproductive c r = true ->
  search ceiling (r :: tiers) c =
  (r :: fst (search ceiling tiers c), snd (search ceiling tiers c)).
Proof.
  unfold Pipeline.unproductive. simpl.
  destruct (query c r) as [sts|]; [|discriminate].
  destruct (candidates c r sts); [|discriminate]. simpl. intros _.
  destruct (search ceiling tiers c); reflexivity.
Qed.

Lemma search_exhausts (ceiling : Z) (c : Coordinate) (tiers : list Z) :
  forallb (unproductive c) tiers = true ->
  search ceiling tiers c = (tiers, NotFound ceiling).
Proof.
  induction tiers as [|r tiers IH]; [reflexivity|].
  cbn [forallb]. rewrite andb_true_iff. intros [U F].
  rewrite (search_skips _ _ _ _ U), (IH F). reflexivity.
Qed.

Lemma search_hits (ceiling : Z) (c : Coordinate) (r : Z) (tiers : list Z) :
  productive c r = true ->
  exists s,
    search ceiling (r :: tiers) c = ([r], Found s (distance c (coordinate s)) r)
    /\ valid s = true /\ (distance c (coordinate s) <=? km r) = true.
Proof.
  unfold Pipeline.productive. simpl.
  destruct (query c r) as [sts|]; [|discriminate].
  destruct (nearest c (candidates c r sts)) as [s|] eqn:N.
  - intros _. exists s. split; [reflexivity|].
    apply nearest_In, candidate_spec in N. tauto.
  - apply nearest_nil_iff in N. rewrite N. discriminate.
Qed.

Lemma search_stops (ceiling : Z) (c : Coordinate) (before : list Z) (r : Z)
    (after : list Z) :
  forallb (unproductive c) before = true ->
  productive c r = true ->
  exists s,
    search ceiling (before ++ r :: after) c =
    (before ++ [r], Found s (distance c (coordinate s)) r)
    /\ valid s = true /\ (distance c (coordinate s) <=? km r) = true.
Proof.
  intros U P. destruct (search_hits ceiling c r after P) as (s & E & V).
  exists s. split; [|exact V]. clear V.
  induction before as [|b before IH]; [exact E|].
  cbn [forallb] in U. apply andb_true_iff in U. destruct U as [Ub U].
  cbn [app]. rewrite (search_skips _ _ _ _ Ub), (IH U). reflexivity.
Qed.

Lemma found_is_valid (ceiling : Z) (c : Coordinate) (tiers : list Z) :
  forall asked s d r,
    search ceiling tiers c = (asked, Found s d r) ->
    valid s = true /\ d = distance c (coordinate s)
    /\ (d <=? km r) = true /\ In r tiers.
Proof.
  induction tiers as [|t tiers IH]; simpl; intros asked s d r H;
    [discriminate|].
  destruct (query c t) as [sts|]; [|discriminate].
  destruct (nearest c (candidates c t sts)) as [s'|] eqn:N.
  - injection H as <- <- <- <-.
    apply nearest_In, candidate_spec in N. tauto.
  - destruct (search ceiling tiers c) as [asked' res] eqn:S.
    injection H as <- ->.
    destruct (IH _ _ _ _ eq_refl) as (V & D & L & I). auto.
Qed.

(** No valid station within [limit] kilometres leaves every tier up to
    [limit] without a candidate. *)
Lemma none_within_unproductive (c : Coordinate) (limit r : Z) :
  none_within c limit r = true ->
  (km r <=? km limit) = true ->
  unproductive c r = true.
Proof.
  unfold Pipeline.none_within, Pipeline.unproductive, Pipeline.candidates.
  destruct (query c r) as [sts|]; [|discriminate].
  intros F K. induction sts as [|s sts IH]; [reflexivity|].
  cbn [forallb] in F. apply andb_true_iff in F. destruct F as [Fs F].
  cbn [filter].
  destruct (valid s) eqn:V; simpl in *; [|exact (IH F)].
  destruct (distance c (coordinate s) <=? km r) eqn:D; [|exact (IH F)].
  rewrite (FloatOrder.leb_trans _ _ _ D K) in Fs. discriminate.
Qed.

(** C8: the locator asks the registry for the tiers in the fixed order
    1, 5, 10, 25 km and stops at the first tier that yields a candidate (a
    station with a PM2.5 reading within that radius): when the tiers before
    [r] yield none and [r] yields one, the radii asked are exactly those up to
    [r], and the result is a valid station found at tier [r].  In particular,
    when the 1 km tier yields a candidate, 1 km is the only radius asked.
    Whatever the registry answers, the radii asked are an initial part of
    1, 5, 10, 25. *)
Theorem locate_stops_at_first_productive_tier (c : Coordinate)
    (before : list Z) (r : Z) (after : list Z) :
  radii = before ++ r :: after ->
  forallb (unproductive c) before = true ->
  productive c r = true ->
  radii = [1; 5; 10; 25]%Z /\
  (exists s v,
      locate c = (before ++ [r], Found s (distance c (coordinate s)) r) /\
      station_pm25 s = Some v /\
      (distance c (coordinate s) <=? km r) = true) /\
  (productive c 1%Z = true -> fst (locate c) = [1%Z]) /\
  (exists rest, radii = fst (locate c) ++ rest).
Proof.
  intros R U P. split; [reflexivity|]. split; [|split].
  - destruct (search_stops search_ceiling c before r after U P)
      as (s & E & V & D).
    destruct (valid_has_pm25 s V) as [v Hv].
    exists s, v. unfold Pipeline.locate. rewrite R. auto.
  - intros P1.
    destruct (search_hits search_ceiling c 1%Z [5; 10; 25]%Z P1)
      as (s & E & _).
    unfold Pipeline.locate.
    change radii with (1 :: [5; 10; 25])%Z. rewrite E. reflexivity.
  - apply search_prefix.
Qed.

End Locator.

(** ** Resolution requests: the locator followed by the weather enricher *)

Section Resolution.

Import Pipeline.
Local Open Scope list_scope.
Local Open Scope float_scope.

Variable distance : Coordinate -> Coordinate -> float.
Variable query : Coordinate -> Z -> option (list Station).
Variable now : Z.
Variable staleness_ceiling : Z.
Variable current : Coordinate -> option Weather.
Variable weather_target : Coordinate -> option Station -> Coordinate.

Local Abbreviation none_within :=
  (Pipeline.none_within distance query now staleness_ceiling).
Local Abbreviation locate := (Pipeline.locate distance query now staleness_ceiling).
Local Abbreviation enrich := (Pipeline.enrich current).
Local Abbreviation resolve :=
  (Pipeline.resolve distance query now staleness_ceiling current
     weather_target).

Lemma enrich_keeps (t : Coordinate) (o : Observation) :
  obs_station (enrich t o) = obs_station o /\
  obs_distance (enrich t o) = obs_distance o /\
  obs_pm25 (enrich t o) = obs_pm25 o /\
  obs_pm10 (enrich t o) = obs_pm10 o /\
  obs_message (enrich t o) = obs_message o.
Proof.
  unfold Pipeline.enrich. destruct (current t); simpl; repeat split.
Qed.

Lemma upstream_unavailable (c : Coordinate) :
  query c 1%Z = None ->
  locate c = ([1%Z], UpstreamUnavailable) /\ resolve c = None.
Proof.
  intros Q. unfold Pipeline.resolve, Pipeline.locate. simpl. rewrite Q.
  split; reflexivity.
Qed.

(** C5: when the registry answers every tier and no valid station it returns
    lies within 25 km of the query point, the locator returns "no station
    found" carrying the ceiling 25, after asking all four tiers.  The request
    succeeds with a record that has a message ("No station found within
    25 km") and no station, which the data card shows as its "No Station
    Found" block; an unreachable registry gives a different result, and a
    failed request. *)
Theorem locate_not_found_within_ceiling (c : Coordinate) :
  forallb (none_within c search_ceiling) radii = true ->
  locate c = (radii, NotFound 25%Z) /\
  NotFound 25%Z <> UpstreamUnavailable /\
  (exists o,
      resolve c = Some o /\ obs_station o = None /\
      obs_message o = Some "No station found within 25 km"%string /\
      forall iso8601 toFixed,
        station_name (response iso8601 o) = None /\
        renderStation toFixed (response iso8601 o) =
        NoStationFound (Some "No station found within 25 km"%string)) /\
  (forall c', query c' 1%Z = None ->
              locate c' = ([1%Z], UpstreamUnavailable) /\ resolve c' = None).
Proof.
  intros H.
  assert (L : locate c = (radii, NotFound 25%Z)).
  { unfold Pipeline.locate. apply search_exhausts.
    rewrite forallb_forall in H |- *. intros r I.
    apply (none_within_unproductive _ _ _ _ c search_ceiling r (H r I)).
    unfold radii in I. simpl in I.
    repeat (destruct I as [<-|I]; [reflexivity|]). contradiction. }
  split; [exact L|]. split; [discriminate|]. split.
  - exists (enrich (weather_target c None) (not_found_observation 25%Z)).
    destruct (enrich_keeps (weather_target c None)
                (not_found_observation 25%Z)) as (S & _ & _ & _ & M).
    split; [unfold Pipeline.resolve; rewrite L; reflexivity|].
    split; [exact S|]. split; [exact M|].
    intros iso8601 toFixed. unfold renderStation, response; simpl.
    rewrite S, M. split; reflexivity.
  - intros c'. apply upstream_unavailable.
Qed.

(** C6: when a valid station was found and the weather provider fails, the
    request still succeeds: the record carries the station's PM2.5 reading,
    its weather fields are unavailable ([null] in the response, shown as N/A
    by the data card) and it carries a warning, which the data card shows. *)
Theorem weather_failure_keeps_pollutants (c : Coordinate) (asked : list Z)
    (s : Station) (d : float) (r : Z) :
  locate c = (asked, Found s d r) ->
  current (weather_target c (Some s)) = None ->
  exists o v,
    resolve c = Some o /\
    obs_station o = Some s /\
    station_pm25 s = Some v /\ obs_pm25 o = Some v /\
    obs_pm10 o = station_pm10 s /\
    obs_temperature o = None /\ obs_humidity o = None /\ obs_wind o = None /\
    obs_warning o = Some "Weather data unavailable"%string /\
    forall iso8601 toFixed,
      pm25 (response iso8601 o) = Js.Number v /\
      temperature_celsius (response iso8601 o) = Js.Null /\
      relative_humidity (response iso8601 o) = Js.Null /\
      wind_speed (response iso8601 o) = Js.Null /\
      formatValue toFixed (temperature_celsius (response iso8601 o))
        "°C" 1 = "N/A"%string /\
      formatValue toFixed (relative_humidity (response iso8601 o))
        "%" 0 = "N/A"%string /\
      formatValue toFixed (wind_speed (response iso8601 o))
        " m/s" 1 = "N/A"%string /\
      whenTruthy (warning (response iso8601 o)) =
      Some "Weather data unavailable"%string.
Proof.
  intros L W.
  destruct (found_is_valid _ _ _ _ search_ceiling c radii asked s d r L)
    as (V & _ & _ & _).
  destruct (valid_has_pm25 _ _ s V) as [v Hv].
  exists (enrich (weather_target c (Some s)) (found_observation s d)), v.
  split; [unfold Pipeline.resolve; rewrite L; reflexivity|].
  unfold Pipeline.enrich. rewrite W. simpl. rewrite Hv.
  repeat split; reflexivity.
Qed.

End Resolution.

(** ** The overall status of a prediction set *)

Section Status.

Import Pipeline.
Local Open Scope list_scope.

Lemma forallb_false_exists {A : Type} (f : A -> bool) (l : list A) :
  forallb f l = false -> exists x, In x l /\ f x = false.
Proof.
  induction l as [|a l IH]; simpl; [discriminate|].
  destruct (f a) eqn:Fa; simpl.
  - intros H. destruct (IH H) as (x & I & Fx). eauto.
  - eauto.
Qed.

Lemma existsb_false_forall {A : Type} (f : A -> bool) (l : list A) :
  existsb f l = false -> forall x, In x l -> f x = false.
Proof.
  intros H x I. destruct (f x) eqn:Fx; [|reflexivity].
  rewrite <- H. symmetry. apply existsb_exists. eauto.
Qed.

(** The three statuses, for any list of entries. *)
Lemma status_success (es : list (Horizon * Outcome)) :
  overall_status es = Success <->
  forall e, In e es -> succeeded (snd e) = true.
Proof.
  unfold overall_status. rewrite <- forallb_forall.
  destruct (forallb _ es); [tauto|].
  destruct (existsb _ es); split; discriminate.
Qed.

Lemma status_partial (es : list (Horizon * Outcome)) :
  overall_status es = Partial <->
  (exists e, In e es /\ succeeded (snd e) = true) /\
  (exists e, In e es /\ succeeded (snd e) = false).
Proof.
  unfold overall_status.
  destruct (forallb _ es) eqn:F.
  - split; [discriminate|]. intros [_ (e & I & N)].
    rewrite forallb_forall in F. rewrite (F e I) in N. discriminate.
  - destruct (existsb _ es) eqn:X.
    + split; [intros _|reflexivity]. split.
      * apply existsb_exists in X. exact X.
      * apply forallb_false_exists in F. exact F.
    + split; [discriminate|]. intros [(e & I & Y) _].
      rewrite (existsb_false_forall _ _ X e I) in Y. discriminate.
Qed.

Lemma status_failed (es : list (Horizon * Outcome)) :
  overall_status es = Failed <->
  es <> [] /\ forall e, In e es -> succeeded (snd e) = false.
Proof.
  unfold overall_status.
  destruct (forallb _ es) eqn:F.
  - split; [discriminate|]. intros [N A].
    destruct es as [|e es]; [congruence|].
    rewrite forallb_forall in F.
    pose proof (F e (or_introl eq_refl)) as T.
    pose proof (A e (or_introl eq_refl)) as U. congruence.
  - destruct (existsb _ es) eqn:X.
    + split; [discriminate|]. intros [_ A].
      apply existsb_exists in X. destruct X as (e & I & Y).
      rewrite (A e I) in Y. discriminate.
    + split; [intros _|reflexivity]. split.
      * intros ->. discriminate.
      * apply existsb_false_forall. exact X.
Qed.

(** The statuses in terms of the number of error markers. *)
Lemma errors_le_length (es : list (Horizon * Outcome)) :
  errors es <= List.length es.
Proof. apply filter_length_le. Qed.

Lemma errors_zero (es : list (Horizon * Outcome)) :
  errors es = 0 <-> forall e, In e es -> succeeded (snd e) = true.
Proof.
  unfold errors. induction es as [|a es IH]; simpl; [tauto|].
  destruct (succeeded (snd a)) eqn:Sa; simpl.
  - rewrite IH. split; [intros H e [<-|I]; auto|auto].
  - split; [discriminate|]. intros H.
    rewrite (H a (or_introl eq_refl)) in Sa. discriminate.
Qed.

Lemma errors_all (es : list (Horizon * Outcome)) :
  errors es = List.length es <->
  forall e, In e es -> succeeded (snd e) = false.
Proof.
  induction es as [|a es IH]; [simpl; tauto|].
  pose proof (errors_le_length es) as B. unfold errors in *. simpl.
  destruct (succeeded (snd a)) eqn:Sa; simpl.
  - split; [lia|]. intros H.
    rewrite (H a (or_introl eq_refl)) in Sa. discriminate.
  - split.
    + intros H e [<-|I]; [exact Sa|]. apply IH; [lia|exact I].
    + intros H. f_equal. apply IH. auto.
Qed.

End Status.

(** ** The forecast dispatcher *)

Section Forecast.

Import Pipeline.
Local Open Scope list_scope.

Variable FeatureVector : Type.
Variable assemble : Observation -> FeatureVector.
Variable load : Horizon -> option (FeatureVector -> float).

Local Abbreviation forecast := (Pipeline.forecast FeatureVector load).
Local Abbreviation dispatch := (Pipeline.dispatch FeatureVector load).
Local Abbreviation predict := (Pipeline.predict FeatureVector assemble load).

(** What the dispatcher's entries are. *)
Lemma all_horizons_complete (h : Horizon) : In h all_horizons.
Proof. destruct h; simpl; auto. Qed.

Lemma in_dispatch (fv : FeatureVector) (hs : list Horizon)
    (e : Horizon * Outcome) :
  In e (dispatch fv hs) <-> exists h, In h hs /\ e = (h, forecast fv h).
Proof.
  unfold Pipeline.dispatch. rewrite in_map_iff.
  split; intros (h & A & B); exists h; auto.
Qed.

Lemma forecast_ok (fv : FeatureVector) (h : Horizon) :
  succeeded (forecast fv h) = true <-> load h <> None.
Proof.
  unfold Pipeline.forecast. destruct (load h); simpl; split;
    congruence.
Qed.

Lemma forecast_err (fv : FeatureVector) (h : Horizon) :
  succeeded (forecast fv h) = false <-> load h = None.
Proof.
  unfold Pipeline.forecast. destruct (load h); simpl; split;
    congruence.
Qed.

Lemma outcome_of_dispatch (fv : FeatureVector) (h : Horizon) :
  outcome_of (dispatch fv all_horizons) h = Some (forecast fv h).
Proof. destruct h; reflexivity. Qed.

(** C7: over the four horizons the overall status is "partial" exactly when
    some horizon produces a value and some horizon errors (so in particular
    when exactly one of the four errors), "failed" exactly when all four
    error, and "success" exactly when none does.  A horizon whose model is
    missing carries the error marker; every other horizon carries the clamped
    prediction of its own model, whatever happens at the other horizons. *)
Theorem prediction_status (o : Observation) :
  let p := predict o all_horizons in
  (overall p = Partial <->
     (exists h, load h <> None) /\ (exists h, load h = None)) /\
  (overall p = Failed <-> forall h, load h = None) /\
  (overall p = Success <-> forall h, load h <> None) /\
  (errors (entries p) = 1 -> overall p = Partial) /\
  (errors (entries p) = 4 <-> overall p = Failed) /\
  (forall h, load h = None -> outcome_of (entries p) h = Some HorizonError) /\
  (forall h model,
      load h = Some model ->
      outcome_of (entries p) h = Some (Predicted (clamp (model (assemble o))))).
Proof.
  unfold Pipeline.predict. cbn [entries overall].
  set (fv := assemble o). set (es := dispatch fv all_horizons).
  assert (Mem : forall h, In (h, forecast fv h) es).
  { intros h. apply in_dispatch. exists h.
    split; [apply all_horizons_complete|reflexivity]. }
  assert (Inv : forall e, In e es -> snd e = forecast fv (fst e)).
  { intros e I. apply in_dispatch in I. destruct I as (h & _ & ->).
    reflexivity. }
  assert (Fail : overall_status es = Failed <-> forall h, load h = None).
  { rewrite status_failed. split.
    - intros [_ A] h. apply (forecast_err fv). exact (A _ (Mem h)).
    - intros A. split; [discriminate|]. intros e I. rewrite (Inv e I).
      apply forecast_err, A. }
  assert (Part : overall_status es = Partial <->
                 (exists h, load h <> None) /\ (exists h, load h = None)).
  { rewrite status_partial. split.
    - intros [(e & I & Y) (e' & I' & N)].
      rewrite (Inv e I) in Y. rewrite (Inv e' I') in N.
      apply forecast_ok in Y. apply forecast_err in N. eauto.
    - intros [(h & Y) (h' & N)]. split.
      + exists (h, forecast fv h). split; [apply Mem|].
        apply forecast_ok, Y.
      + exists (h', forecast fv h'). split; [apply Mem|].
        apply forecast_err, N. }
  split; [exact Part|]. split; [exact Fail|]. split; [|split; [|split; [|split]]].
  - rewrite status_success. split.
    + intros A h. apply (forecast_ok fv). exact (A _ (Mem h)).
    + intros A e I. rewrite (Inv e I). apply forecast_ok, A.
  - intros E. apply status_partial. split.
    + destruct (forallb_false_exists (fun e => negb (succeeded (snd e))) es)
        as (e & I & Y).
      * destruct (forallb _ es) eqn:F; [|reflexivity].
        assert (errors es = List.length es) as L.
        { apply errors_all. intros e I. rewrite forallb_forall in F.
          apply negb_true_iff, F, I. }
        rewrite E in L. discriminate.
      * exists e. split; [exact I|]. apply negb_false_iff, Y.
    + destruct (existsb (fun e => negb (succeeded (snd e))) es) eqn:X.
      * apply existsb_exists in X. destruct X as (e & I & Y).
        exists e. split; [exact I|]. apply negb_true_iff, Y.
      * assert (errors es = 0) as Z; [|rewrite Z in E; discriminate].
        apply errors_zero. intros e I.
        apply negb_false_iff, (existsb_false_forall _ _ X e I).
  - change 4 with (List.length es). rewrite errors_all, Fail. split.
    + intros A h. apply (forecast_err fv). exact (A _ (Mem h)).
    + intros A e I. rewrite (Inv e I). apply forecast_err, A.
  - intros h N. unfold es. rewrite outcome_of_dispatch.
    unfold Pipeline.forecast. rewrite N. reflexivity.
  - intros h model L. unfold es. rewrite outcome_of_dispatch.
    unfold Pipeline.forecast. rewrite L. reflexivity.
Qed.

End Forecast.

(** ** The scenarios, run *)

Section Scenarios.

Import Pipeline Scenario.
Local Open Scope list_scope.
Local Open Scope float_scope.

Lemma locate_stops_at_first_productive_tier_witness :
  radii = [1; 5; 10; 25]%Z /\
  (exists s v,
      locate at_800_m one_station clock one_hour here =
      ([] ++ [1%Z], Found s (at_800_m here (coordinate s)) 1%Z) /\
      station_pm25 s = Some v /\
      (at_800_m here (coordinate s) <=? km 1) = true) /\
  (productive at_800_m one_station clock one_hour here 1%Z = true ->
   fst (locate at_800_m one_station clock one_hour here) = [1%Z]) /\
  (exists rest,
      radii = fst (locate at_800_m one_station clock one_hour here) ++ rest).
Proof.
  apply (locate_stops_at_first_productive_tier at_800_m one_station clock
           one_hour here [] 1%Z [5; 10; 25]%Z); reflexivity.
Defined.

(** The station at 0.8 km is returned at the 1 km tier, and 82.5 is Very
    Unhealthy. *)
Example station_at_800_m :
  locate at_800_m one_station clock one_hour here =
  ([1%Z], Found consulate 0.8 1%Z) /\
  option_map (fun v => classify (Js.Number v)) (station_pm25 consulate) =
  Some "Very Unhealthy"%string.
Proof. split; reflexivity. Qed.

(** The station at 12 km is returned at the 25 km tier, after the 1, 5 and
    10 km tiers. *)
Example station_at_12_km :
  locate at_12_km one_station clock one_hour here =
  ([1; 5; 10; 25]%Z, Found consulate 12 25%Z).
Proof. reflexivity. Qed.

Lemma locate_not_found_within_ceiling_witness :
  locate at_40_km one_station clock one_hour here = (radii, NotFound 25%Z) /\
  NotFound 25%Z <> UpstreamUnavailable /\
  (exists o,
      resolve at_40_km one_station clock one_hour weather_down at_station
        here = Some o /\
      obs_station o = None /\
      obs_message o = Some "No station found within 25 km"%string /\
      forall iso8601 toFixed,
        station_name (response iso8601 o) = None /\
        renderStation toFixed (response iso8601 o) =
        NoStationFound (Some "No station found within 25 km"%string)) /\
  (forall c', one_station c' 1%Z = None ->
              locate at_40_km one_station clock one_hour c' =
              ([1%Z], UpstreamUnavailable) /\
              resolve at_40_km one_station clock one_hour weather_down
                at_station c' = None).
Proof.
  apply (locate_not_found_within_ceiling at_40_km one_station clock one_hour
           weather_down at_station here).
  reflexivity.
Defined.

Lemma weather_failure_keeps_pollutants_witness :
  exists o v,
    resolve at_800_m one_station clock one_hour weather_down at_station here
    = Some o /\
    obs_station o = Some consulate /\
    station_pm25 consulate = Some v /\ obs_pm25 o = Some v /\
    obs_pm10 o = station_pm10 consulate /\
    obs_temperature o = None /\ obs_humidity o = None /\ obs_wind o = None /\
    obs_warning o = Some "Weather data unavailable"%string /\
    forall iso8601 toFixed,
      pm25 (response iso8601 o) = Js.Number v /\
      temperature_celsius (response iso8601 o) = Js.Null /\
      relative_humidity (response iso8601 o) = Js.Null /\
      wind_speed (response iso8601 o) = Js.Null /\
      formatValue toFixed (temperature_celsius (response iso8601 o))
        "°C" 1 = "N/A"%string /\
      formatValue toFixed (relative_humidity (response iso8601 o))
        "%" 0 = "N/A"%string /\
      formatValue toFixed (wind_speed (response iso8601 o))
        " m/s" 1 = "N/A"%string /\
      whenTruthy (warning (response iso8601 o)) =
      Some "Weather data unavailable"%string.
Proof.
  apply (weather_failure_keeps_pollutants at_800_m one_station clock one_hour
           weather_down at_station here [1%Z] consulate 0.8 1%Z);
    reflexivity.
Defined.

(** An empty registry: all four tiers are asked, and the request succeeds
    with the message alone. *)
Example empty_registry :
  locate at_800_m no_station clock one_hour here = (radii, NotFound 25%Z) /\
  option_map (fun o => (obs_station o, obs_message o))
    (resolve at_800_m no_station clock one_hour weather_down at_station here)
  = Some (None, Some "No station found within 25 km"%string).
Proof. split; reflexivity. Qed.

(** One missing model out of four: the set is partial, the 24 h entry is the
    error marker and the other three keep their values. *)
Example one_model_missing :
  prediction_response (fun _ => "2025-10-05T06:30:00Z"%string)
    (predict (list float) features no_24h_model observed all_horizons) =
  mkPredictionResponse "partial"
    [("1h", Js.Number 82.5); ("6h", Js.Number 82.5); ("12h", Js.Number 82.5);
     ("24h", Js.Null)]%string
    (Some "2025-10-05T06:30:00Z"%string).
Proof. reflexivity. Qed.

Example no_model_at_all :
  overall (predict (list float) features no_model observed all_horizons)
  = Failed.
Proof. reflexivity. Qed.

(** The data card shows a prediction set only when its status is
    "success". *)
Example partial_set_not_rendered (toLocaleString : string -> string) :
  renderPredictions toLocaleString
    (Some (prediction_response (fun _ => "2025-10-05T06:30:00Z"%string)
             (predict (list float) features no_24h_model observed
                all_horizons)))
  = None.
Proof. reflexivity. Qed.

End Scenarios.

(** ** Sample points of the classifier *)

Example classify_14_9 : classify (Js.Number js_14_9) = "Good".
Proof. reflexivity. Qed.

Example classify_82_5 : classify (Js.Number 82.5%float) = "Very Unhealthy".
Proof. reflexivity. Qed.

Example classify_nan : classify (Js.Number nan) = "Very Unhealthy".
Proof. reflexivity. Qed.

Example classify_negative_infinity :
  classify (Js.Number neg_infinity) = "Good".
Proof. reflexivity. Qed.

(** * Further properties of the frontend *)

(** ** api/airquality.js: how the two requests settle *)

Section ApiFacts.

Import Api.
Local Open Scope list_scope.

Variable numberToString : float -> string.
Variable J : Type.
Variable fetch : Request -> FetchOutcome J.

Lemma request_settles (label : string) (r : Request) :
  (forall data,
      snd (request fetch label r) = Resolved data <->
      exists status, fetch r = Response true status (Json data)) /\
  (forall status content,
      fetch r = Response false status content ->
      request fetch label r =
      ([(label, httpError status)], Rejected (httpError status))) /\
  (forall e, snd (request fetch label r) = Rejected e ->
             fst (request fetch label r) = [(label, e)]) /\
  (forall data, snd (request fetch label r) = Resolved data ->
                fst (request fetch label r) = []).
Proof.
  unfold request.
  destruct (fetch r) as [e|ok status [data|e]]; [|destruct ok..]; simpl;
    (split; [|split; [|split]]);
    try (intros data'; split; [discriminate|intros [st E]; discriminate]);
    try (intros ? ? E; discriminate);
    try (intros ? E; discriminate);
    try (intros ? E; injection E as <-; reflexivity);
    try (intros ? ? E; injection E as <- <-; reflexivity).
  intros data'. split.
  - intros E. injection E as <-. eauto.
  - intros [st E]. injection E as _ <-. reflexivity.
Qed.

(** X1: both request functions resolve exactly when the response is [ok] and
    its body parses, and then with the parsed body, unchanged; a response
    that is not [ok] is rejected with "HTTP error! status: N" whatever its
    body; every rejection is logged once under the function's label with the
    rejected error, and rethrown; a resolution logs nothing. *)
Theorem requests_settle (lat lon : float) :
  (forall data,
      snd (fetchAirQualityData numberToString fetch lat lon) = Resolved data
      <-> exists status,
        fetch (airQualityRequest numberToString lat lon) =
        Response true status (Json data)) /\
  (forall status content,
      fetch (airQualityRequest numberToString lat lon) =
      Response false status content ->
      fetchAirQualityData numberToString fetch lat lon =
      ([("Error fetching air quality data:"%string, httpError status)],
       Rejected (httpError status))) /\
  (forall e,
      snd (fetchAirQualityData numberToString fetch lat lon) = Rejected e ->
      fst (fetchAirQualityData numberToString fetch lat lon) =
      [("Error fetching air quality data:"%string, e)]) /\
  (forall data,
      snd (fetchAirQualityData numberToString fetch lat lon) = Resolved data
      -> fst (fetchAirQualityData numberToString fetch lat lon) = []) /\
  (forall data,
      snd (fetchPredictionsFromCoordinates numberToString fetch lat lon) =
      Resolved data
      <-> exists status,
        fetch (predictionRequest numberToString lat lon) =
        Response true status (Json data)) /\
  (forall status content,
      fetch (predictionRequest numberToString lat lon) =
      Response false status content ->
      fetchPredictionsFromCoordinates numberToString fetch lat lon =
      ([("Error fetching predictions:"%string, httpError status)],
       Rejected (httpError status))) /\
  (forall e,
      snd (fetchPredictionsFromCoordinates numberToString fetch lat lon) =
      Rejected e ->
      fst (fetchPredictionsFromCoordinates numberToString fetch lat lon) =
      [("Error fetching predictions:"%string, e)]) /\
  (forall data,
      snd (fetchPredictionsFromCoordinates numberToString fetch lat lon) =
      Resolved data ->
      fst (fetchPredictionsFromCoordinates numberToString fetch lat lon) = []).
Proof.
  unfold fetchAirQualityData, fetchPredictionsFromCoordinates.
  destruct (request_settles "Error fetching air quality data:"
              (airQualityRequest numberToString lat lon)) as (A & B & C & D).
  destruct (request_settles "Error fetching predictions:"
              (predictionRequest numberToString lat lon)) as (A' & B' & C' & D').
  repeat split; try apply A; try apply A'; auto.
Qed.

(** A request either resolves or is rejected, and which one is decided by
    the response alone. *)
Lemma request_cases (label : string) (r : Request) :
  (exists status data,
      fetch r = Response true status (Json data) /\
      request fetch label r = ([], Resolved data)) \/
  (exists e,
      (forall status data, fetch r <> Response true status (Json data)) /\
      request fetch label r = ([(label, e)], Rejected e)).
Proof.
  unfold request.
  destruct (fetch r) as [e|[|] status [data|e]]; simpl.
  - right. exists e. split; [discriminate|reflexivity].
  - left. eauto.
  - right. exists e. split; [discriminate|reflexivity].
  - right. exists (httpError status). split; [discriminate|reflexivity].
  - right. exists (httpError status). split; [discriminate|reflexivity].
Qed.

End ApiFacts.

(** ** App.jsx: a handler run to completion *)

Section AppHandlers.

Import Api.
Local Open Scope list_scope.

Variable numberToString : float -> string.
Variable toFixed : float -> nat -> string.
Variable toLocaleString : string -> string.
Variable airQualityApi : Request -> FetchOutcome (option AirQualityData).
Variable predictionApi : Request -> FetchOutcome (option PredictionResponse).

Local Abbreviation handleLocationSelect :=
  (App.handleLocationSelect numberToString airQualityApi).
Local Abbreviation handleGeneratePredictions :=
  (App.handleGeneratePredictions numberToString predictionApi).

(** X2: whatever the state before and whatever the network does, a map click
    run to completion leaves the clicked location selected, the loading flag
    off and the earlier predictions and prediction error cleared.  Either the
    response was [ok] with a parsed body, which becomes the data, with no
    error and nothing logged; or the data is empty and the error is the fixed
    text "Failed to fetch air quality data", logged once by the request
    function and once by the handler. *)
Theorem handleLocationSelect_outcome (lat lng : float) (st : App.State) :
  let out := handleLocationSelect lat lng st in
  App.selectedLocation (snd out) = Some (lat, lng) /\
  App.isLoading (snd out) = false /\
  App.predictions (snd out) = None /\
  App.predictionError (snd out) = None /\
  App.isPredictionLoading (snd out) = App.isPredictionLoading st /\
  ((exists status data,
       airQualityApi (airQualityRequest numberToString lat lng) =
       Response true status (Json data) /\
       App.airQualityData (snd out) = data /\
       App.error (snd out) = None /\
       fst out = []) \/
   (exists e,
       (forall status data,
           airQualityApi (airQualityRequest numberToString lat lng) <>
           Response true status (Json data)) /\
       App.airQualityData (snd out) = None /\
       App.error (snd out) = Some "Failed to fetch air quality data"%string /\
       fst out = [("Error fetching air quality data:"%string, e);
                  ("Error:"%string, e)])).
Proof.
  unfold App.handleLocationSelect, fetchAirQualityData.
  destruct (request_cases _ airQualityApi "Error fetching air quality data:"
              (airQualityRequest numberToString lat lng))
    as [(status & data & F & R)|(e & F & R)]; rewrite R; cbn.
  - repeat split. left. exists status, data. repeat split. exact F.
  - repeat split. right. exists e. repeat split. exact F.
Qed.

(** X3: when the server answers a map click with a status that is not [ok],
    the card shows the error view with the fixed text, whatever the status
    and the body were; the status only reaches the console.  The map keeps a
    gray marker at the clicked point, with no details in its popup. *)
Theorem http_failure_shows_error (lat lng : float) (st : App.State)
    (status : Z) (content : Body (option AirQualityData)) (g : Geolocation) :
  airQualityApi (airQualityRequest numberToString lat lng) =
  Response false status content ->
  App.dataCard toFixed toLocaleString (snd (handleLocationSelect lat lng st))
  = ErrorView "Failed to fetch air quality data" /\
  fst (handleLocationSelect lat lng st) =
  [("Error fetching air quality data:"%string, httpError status);
   ("Error:"%string, httpError status)] /\
  selectedMarker (App.mapView toFixed g (snd (handleLocationSelect lat lng st)))
  = Some (mkSelectedMarker (lat, lng) (createCustomIcon "#6b7280")
            (coordinateText toFixed (lat, lng)) None).
Proof.
  intros F. unfold App.handleLocationSelect, fetchAirQualityData, request.
  rewrite F. repeat split.
Qed.

(** X4: when the server answers a map click with the no-station reply (an
    [ok] response whose body has a message and nothing else), the request is
    a success: the card is rendered with its "No Station Found" block
    carrying the message, no status banner, N/A in the four cells and
    nothing else; the marker is gray and the popup shows the message, or
    its fixed fallback text when the message is empty. *)
Theorem no_station_reply_shown (lat lng : float) (st : App.State)
    (status : Z) (m : string) (g : Geolocation) :
  airQualityApi (airQualityRequest numberToString lat lng) =
  Response true status (Json (Some (Scenario.messageOnly m))) ->
  App.dataCard toFixed toLocaleString (snd (handleLocationSelect lat lng st))
  = Rendered (mkCard (NoStationFound (Some m)) None "N/A" "N/A" "N/A" "N/A"
                None None None None None) /\
  fst (handleLocationSelect lat lng st) = [] /\
  selectedMarker (App.mapView toFixed g (snd (handleLocationSelect lat lng st)))
  = Some (mkSelectedMarker (lat, lng) (createCustomIcon "#6b7280")
            (coordinateText toFixed (lat, lng))
            (Some (PopupMessage
                     (if String.eqb m "" then "No air quality data available"
                      else m)))).
Proof.
  intros F. unfold App.handleLocationSelect, fetchAirQualityData, request.
  rewrite F. cbn. unfold App.mapView, MapView, renderPopupDetails, whenTruthy.
  cbn. destruct (String.eqb m ""); repeat split.
Qed.

(** X5: the prediction handler does nothing at all without a selected
    location (no request, no log, same state).  With one, it asks for the
    selected coordinates and, run to completion, leaves the prediction
    loading flag off and the location, the air-quality data, its error and
    its loading flag as they were: either the response was [ok] with a parsed
    body, which becomes the predictions, with no prediction error; or the
    predictions are empty and the prediction error is the fixed text "Failed
    to generate predictions". *)
Theorem handleGeneratePredictions_outcome (st : App.State) :
  (App.selectedLocation st = None ->
   handleGeneratePredictions st = ([], st)) /\
  (forall lat lng,
      App.selectedLocation st = Some (lat, lng) ->
      let out := handleGeneratePredictions st in
      App.selectedLocation (snd out) = Some (lat, lng) /\
      App.airQualityData (snd out) = App.airQualityData st /\
      App.error (snd out) = App.error st /\
      App.isLoading (snd out) = App.isLoading st /\
      App.isPredictionLoading (snd out) = false /\
      ((exists status data,
           predictionApi (predictionRequest numberToString lat lng) =
           Response true status (Json data) /\
           App.predictions (snd out) = data /\
           App.predictionError (snd out) = None /\
           fst out = []) \/
       (exists e,
           (forall status data,
               predictionApi (predictionRequest numberToString lat lng) <>
               Response true status (Json data)) /\
           App.predictions (snd out) = None /\
           App.predictionError (snd out) =
           Some "Failed to generate predictions"%string /\
           fst out = [("Error fetching predictions:"%string, e);
                      ("Prediction Error:"%string, e)]))).
Proof.
  unfold App.handleGeneratePredictions. split.
  - intros ->. reflexivity.
  - intros lat lng E.
    unfold fetchPredictionsFromCoordinates, App.predictionsRequested.
    rewrite !E. cbn zeta iota.
    destruct (request_cases _ predictionApi "Error fetching predictions:"
                (predictionRequest numberToString lat lng))
      as [(status & data & F & R)|(e & F & R)]; rewrite R; cbn;
      (split; [reflexivity|]); (split; [reflexivity|]);
      (split; [reflexivity|]); (split; [reflexivity|]);
      (split; [reflexivity|]).
    + left. exists status, data. repeat split. exact F.
    + right. exists e. repeat split. exact F.
Qed.

End AppHandlers.

(** ** App.jsx: the handlers interleaved *)

Section AppRuns.

Import Api.
Local Open Scope list_scope.

Variable toFixed : float -> nat -> string.
Variable toLocaleString : string -> string.

(** The card proper is on screen exactly under the four guards. *)
Lemma dataCard_rendered_iff (st : App.State) :
  (exists c, App.dataCard toFixed toLocaleString st = Rendered c) <->
  App.cardShown st = true.
Proof.
  unfold App.dataCard, App.cardShown, DataCard, whenTruthy.
  destruct (App.selectedLocation st), (App.airQualityData st),
    (App.isLoading st), (App.error st) as [e|]; simpl;
    try destruct (String.eqb e ""); simpl;
    split; try discriminate; eauto; intros [c E]; discriminate.
Qed.

Lemma cardShown_location (st : App.State) :
  App.cardShown st = true -> App.selectedLocation st <> None.
Proof.
  unfold App.cardShown. destruct (App.selectedLocation st); discriminate.
Qed.

Lemma nth_error_after {A : Type} (l : list A) (a : A) (rest : list A) :
  nth_error (l ++ a :: rest) (List.length l) = Some a.
Proof. induction l as [|x l IH]; simpl; [reflexivity|exact IH]. Qed.

Lemma remove_at_after {A : Type} (l : list A) (a : A) (rest : list A) :
  App.remove_at (List.length l) (l ++ a :: rest) = l ++ rest.
Proof.
  induction l as [|x l IH]; simpl; [reflexivity|]. rewrite IH. reflexivity.
Qed.

Lemma step_consistent (w w' : App.Running) (e : App.Event) :
  App.consistent w -> App.step w e = Some w' -> App.consistent w'.
Proof.
  intros (L & P & B & N) S.
  destruct w as [st aq pr]. simpl in *.
  destruct e as [lat lng|i r| |i r]; simpl in S.
  - injection S as <-. unfold App.consistent; simpl.
    split; [intros _; destruct aq; discriminate|].
    split; [exact P|]. split; [exact B|discriminate].
  - destruct (nth_error aq i) eqn:E; [|discriminate]. injection S as <-.
    assert (Sel : App.selectedLocation st <> None).
    { intros Z. specialize (N Z). injection N as _ -> _.
      destruct i; discriminate. }
    unfold App.consistent.
    destruct r; simpl; (split; [discriminate|]);
      (split; [exact P|]); (split; [exact B|]); intros Z; contradiction.
  - destruct (App.generateEnabled st) eqn:G; [|discriminate].
    unfold App.generateEnabled in G. apply andb_true_iff in G.
    destruct G as [C G]. apply negb_true_iff in G.
    pose proof (cardShown_location st C) as Sel.
    destruct (App.selectedLocation st) as [p|] eqn:SL; [|congruence].
    injection S as <-.
    assert (pr = []) as ->.
    { destruct pr; [reflexivity|].
      assert (App.isPredictionLoading st = true) by (apply P; discriminate).
      congruence. }
    unfold App.consistent; simpl.
    split; [exact L|]. split; [split; [discriminate|reflexivity]|].
    split; [auto|]. rewrite SL. discriminate.
  - destruct (nth_error pr i) eqn:E; [|discriminate]. injection S as <-.
    assert (Sel : App.selectedLocation st <> None).
    { intros Z. specialize (N Z). injection N as _ _ ->.
      destruct i; discriminate. }
    assert (App.remove_at i pr = []) as R.
    { destruct pr as [|x [|y pr]]; simpl in *;
        [destruct i; discriminate| |lia].
      destruct i as [|[|i]]; [reflexivity|discriminate..]. }
    unfold App.consistent. rewrite R.
    destruct r; simpl; (split; [exact L|]);
      (split; [split; [discriminate|congruence]|]);
      (split; [auto|]); intros Z; contradiction.
Qed.

Lemma run_consistent (es : list App.Event) :
  forall w w', App.consistent w -> App.run w es = Some w' -> App.consistent w'.
Proof.
  induction es as [|e es IH]; simpl; intros w w' C R.
  - injection R as <-. exact C.
  - destruct (App.step w e) as [w1|] eqn:S; [|discriminate].
    exact (IH w1 w' (step_consistent w w1 e C S) R).
Qed.

Lemma start_consistent : App.consistent App.start.
Proof.
  unfold App.consistent, App.start; simpl.
  split; [discriminate|]. split; [split; [discriminate|congruence]|].
  split; [auto|reflexivity].
Qed.

(** X6: after any sequence of clicks and settled requests from the initial
    state: the loading flag is off as soon as no air-quality request is in
    flight; the prediction flag is on exactly while a prediction request is
    in flight, and at most one ever is; the prediction button is usable only
    with a location selected (so the handler's guard never fires through
    it); and while no location is selected the state is still the initial
    one, with nothing in flight. *)
Theorem runs_are_consistent (es : list App.Event) (w : App.Running) :
  App.run App.start es = Some w ->
  (App.airQualityInFlight w = [] -> App.isLoading (App.state w) = false) /\
  (App.isPredictionLoading (App.state w) = true <->
   App.predictionsInFlight w <> []) /\
  List.length (App.predictionsInFlight w) <= 1 /\
  (App.generateEnabled (App.state w) = true ->
   App.selectedLocation (App.state w) <> None /\
   App.predictionsInFlight w = []) /\
  (App.selectedLocation (App.state w) = None -> w = App.start).
Proof.
  intros R.
  destruct (run_consistent es _ _ start_consistent R) as (L & P & B & N).
  split; [|split; [exact P|split; [exact B|split; [|exact N]]]].
  - intros E. destruct (App.isLoading (App.state w)); [|reflexivity].
    destruct (L eq_refl E).
  - intros G. unfold App.generateEnabled in G. apply andb_true_iff in G.
    destruct G as [C G]. apply negb_true_iff in G.
    split; [exact (cardShown_location _ C)|].
    destruct (App.predictionsInFlight w); [reflexivity|].
    assert (App.isPredictionLoading (App.state w) = true)
      by (apply P; discriminate).
    congruence.
Qed.

(** X7: a response that arrives late is not recognised as late.  From any
    state, click a, click b, then let the request made for a resolve: the
    selected location is b, the data on screen is a's, the loading flag is
    off, and b's request is still in flight. *)
Theorem late_response_is_shown (w : App.Running) (lat_a lng_a lat_b lng_b : float)
    (d : AirQualityData) :
  App.run w
    [App.MapClick lat_a lng_a; App.MapClick lat_b lng_b;
     App.AirQualitySettles (List.length (App.airQualityInFlight w))
       (Resolved (Some d))]
  = Some (App.mkRunning
            (App.mkState (Some (lat_b, lng_b)) (Some d) None false
               (App.isPredictionLoading (App.state w)) None None)
            (App.airQualityInFlight w ++ [(lat_b, lng_b)])
            (App.predictionsInFlight w)) /\
  nth_error (App.airQualityInFlight w ++ [(lat_a, lng_a); (lat_b, lng_b)])
    (List.length (App.airQualityInFlight w)) = Some (lat_a, lng_a) /\
  App.cardShown
    (App.mkState (Some (lat_b, lng_b)) (Some d) None false
       (App.isPredictionLoading (App.state w)) None None) = true.
Proof.
  split; [|split; [apply nth_error_after|reflexivity]].
  simpl. rewrite <- app_assoc. simpl.
  rewrite nth_error_after, remove_at_after. reflexivity.
Qed.

(** X8: a failure that arrives late hides a later success.  From any state,
    click a, click b, let a's request be rejected and then b's resolve: the
    data for b is in the state, and the card still shows the error view. *)
Theorem late_failure_hides_data (w : App.Running) (lat_a lng_a lat_b lng_b : float)
    (e : string) (d : AirQualityData) :
  exists w',
    App.run w
      [App.MapClick lat_a lng_a; App.MapClick lat_b lng_b;
       App.AirQualitySettles (List.length (App.airQualityInFlight w))
         (Rejected e);
       App.AirQualitySettles (List.length (App.airQualityInFlight w))
         (Resolved (Some d))]
    = Some w' /\
    App.airQualityInFlight w' = App.airQualityInFlight w /\
    App.selectedLocation (App.state w') = Some (lat_b, lng_b) /\
    App.airQualityData (App.state w') = Some d /\
    App.isLoading (App.state w') = false /\
    App.dataCard toFixed toLocaleString (App.state w') =
    ErrorView "Failed to fetch air quality data".
Proof.
  eexists. split.
  - simpl. rewrite <- app_assoc. simpl.
    rewrite nth_error_after, remove_at_after. simpl.
    rewrite nth_error_after, remove_at_after. reflexivity.
  - simpl. rewrite app_nil_r. repeat split.
Qed.

(** X9: predictions that arrive late are shown for the wrong place.  With
    the button usable at location a, press it, click b, let the prediction
    request resolve and then b's air-quality request: the request that
    resolved was made for a, the selected location and the data are b's, and
    the predictions in the state are a's. *)
Theorem late_predictions_are_shown (w : App.Running) (a : float * float)
    (lat_b lng_b : float) (p : PredictionResponse) (d : AirQualityData) :
  App.generateEnabled (App.state w) = true ->
  App.selectedLocation (App.state w) = Some a ->
  App.predictionsInFlight w = [] ->
  exists w1 w',
    App.run w [App.GenerateClick; App.MapClick lat_b lng_b] = Some w1 /\
    App.predictionsInFlight w1 = [a] /\
    App.run w1
      [App.PredictionsSettle 0 (Resolved (Some p));
       App.AirQualitySettles (List.length (App.airQualityInFlight w))
         (Resolved (Some d))]
    = Some w' /\
    App.selectedLocation (App.state w') = Some (lat_b, lng_b) /\
    App.airQualityData (App.state w') = Some d /\
    App.predictions (App.state w') = Some p /\
    App.cardShown (App.state w') = true.
Proof.
  intros G S P. do 2 eexists. split; [|split; [|split]].
  - simpl. rewrite G, S. simpl. reflexivity.
  - simpl. rewrite P. reflexivity.
  - simpl. rewrite P. simpl.
    rewrite nth_error_after, remove_at_after. reflexivity.
  - simpl. repeat split.
Qed.

End AppRuns.

(** ** The classifier and the marker on equal numbers and equal labels *)

Section Equality.

Local Open Scope float_scope.

Lemma SFeqb_leb (a b : spec_float) :
  SFeqb a b = SFleb a b && SFleb b a.
Proof.
  unfold SFeqb, SFleb. rewrite (FloatOrder.SFcompare_antisym a b).
  destruct (SFcompare a b) as [[| |]|]; reflexivity.
Qed.

Lemma eqb_leb (x y : float) : (x =? y) = (x <=? y) && (y <=? x).
Proof.
  rewrite FloatAxioms.eqb_spec, !FloatAxioms.leb_spec. apply SFeqb_leb.
Qed.

Lemma eqb_leb_right (x y c : float) :
  (x =? y) = true -> (x <=? c) = (y <=? c).
Proof.
  rewrite eqb_leb, andb_true_iff. intros [A B].
  destruct (x <=? c) eqn:X, (y <=? c) eqn:Y; try reflexivity.
  - rewrite (FloatOrder.leb_trans y x c B X) in Y. discriminate.
  - rewrite (FloatOrder.leb_trans x y c A Y) in X. discriminate.
Qed.

Lemma eqb_leb_left (x y c : float) :
  (x =? y) = true -> (c <=? x) = (c <=? y).
Proof.
  rewrite eqb_leb, andb_true_iff. intros [A B].
  destruct (c <=? x) eqn:X, (c <=? y) eqn:Y; try reflexivity.
  - rewrite (FloatOrder.leb_trans c x y X A) in Y. discriminate.
  - rewrite (FloatOrder.leb_trans c y x Y B) in X. discriminate.
Qed.

Lemma eqb_truthy (x y : float) :
  (x =? y) = true -> Js.truthy (Js.Number x) = Js.truthy (Js.Number y).
Proof.
  intros E. simpl. rewrite (eqb_leb x 0), (eqb_leb y 0).
  rewrite (eqb_leb_right x y 0 E), (eqb_leb_left x y 0 E).
  rewrite eqb_leb, andb_true_iff in E. destruct E as [A _].
  destruct (FloatOrder.leb_not_nan x y A) as [-> ->]. reflexivity.
Qed.

(** X10: two numbers that compare equal under [==] (in particular [+0] and
    [-0]) get the same record from the classifier and the same marker
    colour. *)
Theorem equal_numbers_alike (x y : float) :
  (x =? y) = true ->
  getAirQualityCategory (Js.Number x) = getAirQualityCategory (Js.Number y) /\
  (forall d1 d2,
      pm25 d1 = Js.Number x -> pm25 d2 = Js.Number y ->
      getMarkerIcon (Some d1) = getMarkerIcon (Some d2)).
Proof.
  intros E. split.
  - unfold getAirQualityCategory, Js.leq; simpl.
    rewrite !(eqb_leb_right x y _ E). reflexivity.
  - intros d1 d2 P1 P2. unfold getMarkerIcon, markerColor, Js.leq.
    rewrite P1, P2, (eqb_truthy x y E). simpl Js.to_number.
    rewrite !(eqb_leb_right x y _ E). reflexivity.
Qed.

Lemma equal_numbers_alike_witness :
  getAirQualityCategory (Js.Number 0) = getAirQualityCategory (Js.Number (-0))
  /\
  (forall d1 d2,
      pm25 d1 = Js.Number 0 -> pm25 d2 = Js.Number (-0) ->
      getMarkerIcon (Some d1) = getMarkerIcon (Some d2)).
Proof.
  apply (equal_numbers_alike 0 (-0)). reflexivity.
Defined.

Lemma classifier_range (v : Js.value) :
  In (getAirQualityCategory v) six_records.
Proof.
  destruct v as [| |x]; [left; reflexivity..|].
  unfold getAirQualityCategory, Js.leq; simpl Js.to_number.
  cbn [Js.is_null Js.is_undefined orb].
  destruct (x <=? 15); [right; left; reflexivity|].
  destruct (x <=? 25); [do 2 right; left; reflexivity|].
  destruct (x <=? 37.5); [do 3 right; left; reflexivity|].
  destruct (x <=? 75); [do 4 right; left; reflexivity|].
  do 5 right; left; reflexivity.
Qed.

(** X11: the classifier has six results, and each of its label, its colour
    class and its description identifies the result: two inputs with the same
    label (or the same colour, or the same description) get the same
    record. *)
Theorem label_identifies_record (v w : Js.value) :
  (classify v = classify w <->
   getAirQualityCategory v = getAirQualityCategory w) /\
  (color (getAirQualityCategory v) = color (getAirQualityCategory w) <->
   getAirQualityCategory v = getAirQualityCategory w) /\
  (description (getAirQualityCategory v) =
   description (getAirQualityCategory w) <->
   getAirQualityCategory v = getAirQualityCategory w).
Proof.
  unfold classify.
  pose proof (classifier_range v) as V. pose proof (classifier_range w) as W.
  unfold six_records in V, W. simpl in V, W.
  repeat (destruct V as [V|V]; [|]); try contradiction;
    repeat (destruct W as [W|W]; [|]); try contradiction;
    rewrite <- V, <- W;
    (split; [|split]); split;
    intros E; try reflexivity; vm_compute in E; discriminate.
Qed.

End Equality.

(** ** The two panes on one response *)

Section Panes.

Local Open Scope float_scope.

Variable toFixed : float -> nat -> string.

Lemma nan_is_very_unhealthy (x : float) :
  is_nan x = true ->
  getAirQualityCategory (Js.Number x) =
  mkCategoryInfo "Very Unhealthy" "bg-purple-600" "text-white"
    "Health alert: everyone may experience serious effects".
Proof.
  intros N. unfold getAirQualityCategory, Js.leq; simpl.
  rewrite !(FloatOrder.nan_leb_false x _ N). reflexivity.
Qed.

(** X12: the marker's colour has the hue of the classifier's colour for
    every reading except a number that is falsy: for [null], [undefined] and
    every number other than the zeros and NaN the two agree, and for the
    zeros and NaN they never do. *)
Theorem marker_matches_classifier_iff (d : AirQualityData) :
  hex_hue (markerColor (Some d)) =
  tailwind_hue (color (getAirQualityCategory (pm25 d)))
  <-> Js.truthy (pm25 d) || Js.is_null (pm25 d) || Js.is_undefined (pm25 d)
      = true.
Proof.
  split.
  - destruct (pm25 d) as [| |x] eqn:P; try reflexivity.
    destruct (Js.truthy (Js.Number x)) eqn:T; [reflexivity|].
    unfold markerColor. rewrite P, T. simpl in T.
    apply negb_false_iff, orb_true_iff in T. destruct T as [Z|N].
    + rewrite (zero_is_good x Z). discriminate.
    + rewrite (nan_is_very_unhealthy x N). discriminate.
  - intros H. destruct (Js.truthy (pm25 d)) eqn:T.
    + apply marker_agrees_on_truthy. exact T.
    + apply marker_agrees_on_missing. exact H.
Qed.

(** X13: the popup's PM2.5 line is there exactly for a truthy reading, the
    card's status banner exactly for a reading that is neither [null] nor
    [undefined].  So for a zero or NaN reading the card shows the banner
    while the popup has no line, and is handed the bare number to print
    instead. *)
Theorem popup_line_and_banner (d : AirQualityData) :
  ((exists t, popupPm25 toFixed d = Pm25Line t) <->
   Js.truthy (pm25 d) = true) /\
  ((exists b, renderStatus toFixed d = Some b) <->
   Js.is_null (pm25 d) || Js.is_undefined (pm25 d) = false) /\
  (forall x,
      pm25 d = Js.Number x -> Js.truthy (pm25 d) = false ->
      (exists b, renderStatus toFixed d = Some b) /\
      popupPm25 toFixed d = Leftover (Js.Number x) /\
      reactPrints (Js.Number x) = true).
Proof.
  unfold popupPm25, renderStatus.
  split; [|split].
  - destruct (pm25 d) as [| |x]; simpl;
      try (split; [intros [t E]|]; discriminate).
    destruct (negb _); split; eauto; try discriminate.
    intros [t E]; discriminate.
  - destruct (pm25 d); simpl; split; eauto; try discriminate;
      intros [b E]; discriminate.
  - intros x -> T. rewrite T. simpl. eauto.
Qed.


Lemma append_length (a b : string) :
  String.length (a ++ b)%string = (String.length a + String.length b)%nat.
Proof. induction a as [|c a IH]; simpl; [reflexivity|]. rewrite IH. reflexivity. Qed.

Lemma append_cancel_l (p a b : string) : (p ++ a = p ++ b)%string -> a = b.
Proof.
  induction p as [|c p IH]; simpl; intros H; [exact H|].
  injection H as H. exact (IH H).
Qed.

Lemma append_cancel_r (s : string) :
  forall a b : string, (a ++ s = b ++ s)%string -> a = b.
Proof.
  induction a as [|c a IH]; intros [|c' b] H; simpl in H.
  - reflexivity.
  - apply (f_equal String.length) in H. simpl in H.
    rewrite append_length in H. lia.
  - apply (f_equal String.length) in H. simpl in H.
    rewrite append_length in H. lia.
  - injection H as -> H. f_equal. exact (IH b H).
Qed.

(** X15: an icon determines its colour: two colours give the same icon only
    if they are the same colour, so two responses get the same marker icon
    exactly when they get the same marker colour. *)
Theorem createCustomIcon_injective (c1 c2 : string)
    (a b : option AirQualityData) :
  (createCustomIcon c1 = createCustomIcon c2 <-> c1 = c2) /\
  (getMarkerIcon a = getMarkerIcon b <-> markerColor a = markerColor b).
Proof.
  assert (I : forall x y, createCustomIcon x = createCustomIcon y -> x = y).
  { intros x y H. apply (f_equal html) in H. unfold createCustomIcon in H.
    cbn [html] in H.
    apply append_cancel_l, append_cancel_l, append_cancel_l in H.
    exact (append_cancel_r _ _ _ H). }
  split; (split; [apply I|]).
  - intros ->. reflexivity.
  - unfold getMarkerIcon. intros ->. reflexivity.
Qed.

End Panes.

(** ** components/DataCard.jsx: the predictions block *)

Section PredictionsBlock.

Local Open Scope list_scope.

Variable toLocaleString : string -> string.


End PredictionsBlock.

(** ** App.jsx: between a click and its response *)

Section ClickFeedback.

Variable toFixed : float -> nat -> string.
Variable toLocaleString : string -> string.

(** X17: from any state, the moment the map is clicked (before the request
    settles) the card shows its loading view, whatever error, data or
    predictions were on screen before; the map shows its loading overlay and
    a gray marker at the clicked point with no details in its popup; and the
    earlier data, predictions and both errors are gone from the state. *)
Theorem click_feedback (st : App.State) (lat lng : float) (g : Geolocation) :
  App.dataCard toFixed toLocaleString (App.locationSelected lat lng st)
  = Loading /\
  loadingOverlay (App.mapView toFixed g (App.locationSelected lat lng st))
  = true /\
  selectedMarker (App.mapView toFixed g (App.locationSelected lat lng st))
  = Some (mkSelectedMarker (lat, lng) (createCustomIcon "#6b7280")
            (coordinateText toFixed (lat, lng)) None) /\
  App.airQualityData (App.locationSelected lat lng st) = None /\
  App.predictions (App.locationSelected lat lng st) = None /\
  App.error (App.locationSelected lat lng st) = None /\
  App.predictionError (App.locationSelected lat lng st) = None /\
  App.generateEnabled (App.locationSelected lat lng st) = false.
Proof. repeat split. Qed.

End ClickFeedback.

(** ** The frontend scenarios, run *)

Section FrontendScenarios.

Import Api Scenario.
Local Open Scope list_scope.

Lemma http_failure_shows_error_witness :
  App.dataCard plain_fixed plain_date
    (snd (App.handleLocationSelect plain_number server_error
            (fst lahore) (snd lahore) App.initial))
  = ErrorView "Failed to fetch air quality data" /\
  fst (App.handleLocationSelect plain_number server_error
         (fst lahore) (snd lahore) App.initial) =
  [("Error fetching air quality data:"%string, httpError 500);
   ("Error:"%string, httpError 500)] /\
  selectedMarker
    (App.mapView plain_fixed Unsupported
       (snd (App.handleLocationSelect plain_number server_error
               (fst lahore) (snd lahore) App.initial)))
  = Some (mkSelectedMarker (fst lahore, snd lahore)
            (createCustomIcon "#6b7280")
            (coordinateText plain_fixed (fst lahore, snd lahore)) None).
Proof.
  apply (http_failure_shows_error plain_number plain_fixed plain_date
           server_error (fst lahore) (snd lahore) App.initial 500
           (NotJson "Unexpected token I") Unsupported).
  reflexivity.
Defined.

Lemma no_station_reply_shown_witness :
  App.dataCard plain_fixed plain_date
    (snd (App.handleLocationSelect plain_number server_no_station
            (fst lahore) (snd lahore) App.initial))
  = Rendered (mkCard (NoStationFound (Some "No station found within 25 km"))
                None "N/A" "N/A" "N/A" "N/A" None None None None None) /\
  fst (App.handleLocationSelect plain_number server_no_station
         (fst lahore) (snd lahore) App.initial) = [] /\
  selectedMarker
    (App.mapView plain_fixed Unsupported
       (snd (App.handleLocationSelect plain_number server_no_station
               (fst lahore) (snd lahore) App.initial)))
  = Some (mkSelectedMarker (fst lahore, snd lahore)
            (createCustomIcon "#6b7280")
            (coordinateText plain_fixed (fst lahore, snd lahore))
            (Some (PopupMessage
                     (if String.eqb "No station found within 25 km" ""
                      then "No air quality data available"
                      else "No station found within 25 km")))).
Proof.
  apply (no_station_reply_shown plain_number plain_fixed plain_date
           server_no_station (fst lahore) (snd lahore) App.initial 200
           "No station found within 25 km" Unsupported).
  reflexivity.
Defined.

Lemma runs_are_consistent_witness :
  (App.airQualityInFlight after_session = [] ->
   App.isLoading (App.state after_session) = false) /\
  (App.isPredictionLoading (App.state after_session) = true <->
   App.predictionsInFlight after_session <> []) /\
  List.length (App.predictionsInFlight after_session) <= 1 /\
  (App.generateEnabled (App.state after_session) = true ->
   App.selectedLocation (App.state after_session) <> None /\
   App.predictionsInFlight after_session = []) /\
  (App.selectedLocation (App.state after_session) = None ->
   after_session = App.start).
Proof. apply (runs_are_consistent session after_session). reflexivity. Defined.

Lemma late_predictions_are_shown_witness :
  exists w1 w',
    App.run (App.mkRunning shown_lahore [] [])
      [App.GenerateClick; App.MapClick (fst karachi) (snd karachi)] = Some w1 /\
    App.predictionsInFlight w1 = [lahore] /\
    App.run w1
      [App.PredictionsSettle 0 (Resolved (Some forecast_reply));
       App.AirQualitySettles
         (List.length (App.airQualityInFlight
                         (App.mkRunning shown_lahore [] [])))
         (Resolved (Some (reading (Js.Number 12%float))))]
    = Some w' /\
    App.selectedLocation (App.state w') = Some (fst karachi, snd karachi) /\
    App.airQualityData (App.state w') = Some (reading (Js.Number 12%float)) /\
    App.predictions (App.state w') = Some forecast_reply /\
    App.cardShown (App.state w') = true.
Proof.
  apply (late_predictions_are_shown (App.mkRunning shown_lahore [] []) lahore
           (fst karachi) (snd karachi) forecast_reply
           (reading (Js.Number 12%float)));
    reflexivity.
Defined.

(** The session ends with the four forecast cards on screen, the missing
    24 h value as an Unknown card. *)
Example session_cards :
  option_map (fun w =>
                match App.dataCard plain_fixed plain_date (App.state w) with
                | Rendered c =>
                    option_map (fun r => List.map
                                  (fun k => (card_horizon k,
                                             category (card_info k)))
                                  (fst r))
                      (predictionCards c)
                | _ => None
                end)
    (App.run App.start session)
  = Some (Some [("1h", "Good"); ("6h", "Unhealthy for Sensitive");
                ("12h", "Very Unhealthy"); ("24h", "Unknown")]%string).
Proof. reflexivity. Qed.

End FrontendScenarios.
